(** * StereoscopicRenderingApp: side-by-side stereo rendering and auto-focus

    A shallow embedding of
    [samples/StereoscopicRendering/src/StereoscopicRenderingApp.cpp]:
    the application object with its handlers [setup], [update], [draw],
    [mouseDown], [mouseDrag], [keyDown] and [resize].

    Conventions.
    - A C++ [float] is a real number ([R]): the model is exact arithmetic,
      without rounding, infinities or NaN.
    - A C++ [int] (window sizes, viewport corners) is a [Z]; [/] on ints is
      [Z.quot].
    - A member function that mutates its object is a function returning the
      new object; [draw], which talks to the OpenGL context as well, is
      written in a state monad over the pair of the application and the
      context.
    - The framework classes the sample only calls ([CameraStereo],
      [CameraStereoAutoFocuser], [MayaCamUI], the [gl::] functions) are not
      part of the sample's source file; what the handlers need of them is
      given below, each piece marked as such. *)

From Stdlib Require Import Reals Lra ZArith Lia List Bool.
From ExtLib Require Import Structures.Monad Structures.MonadState.
From ExtLib Require Import Data.Monads.StateMonad.
Import ListNotations.
Import MonadNotation.

Local Open Scope R_scope.

(* ===================================================================== *)
(** * Scalars and vectors *)
(* ===================================================================== *)

Module math.

(** Modelled from the spec: [math<float>::min] of cinder/CinderMath.h, the
    [min] of the spec's target formula, written as the ternary
    [(x < y) ? x : y]. *)
Definition min (x y : R) : R := if Rlt_dec x y then x else y.

(** Modelled from the spec: [math<float>::clamp] of cinder/CinderMath.h,
    the clamping of step 2 of the controller's update. *)
Definition clamp (x lo hi : R) : R :=
  if Rlt_dec x lo then lo else if Rlt_dec hi x then hi else x.

End math.

(** Modelled from the spec: [Vec3f] (cinder/Vector.h), a 3D point or
    direction: three floats. *)
Record Vec3f : Type := mkVec3f { vx : R; vy : R; vz : R }.

(** Modelled from the spec: [Vec2i] (cinder/Vector.h), the pixel position
    of a mouse event. *)
Record Vec2i : Type := mkVec2i { px : Z; py : Z }.

Module Vec3.

(** Modelled from the spec: [operator-] of [Vec3f], coordinate by
    coordinate. *)
Definition sub (a b : Vec3f) : Vec3f :=
  mkVec3f (vx a - vx b) (vy a - vy b) (vz a - vz b).

(** Modelled from the spec: [Vec3f::length] of cinder/Vector.h, the length
    behind the spec's [distance(eyePoint, centerOfInterest)]. *)
Definition length (v : Vec3f) : R :=
  sqrt (vx v * vx v + vy v * vy v + vz v * vz v).

(** The Euclidean distance between two points, written out coordinate by
    coordinate; [update] does not call it, the theorems compare with it. *)
Definition distance (p q : Vec3f) : R :=
  sqrt (Rsqr (vx p - vx q) + Rsqr (vy p - vy q) + Rsqr (vz p - vz q)).

End Vec3.

(* ===================================================================== *)
(** * The cameras *)
(* ===================================================================== *)

(** Modelled from the spec: the mono "base" camera of [CameraPersp]
    (cinder/Camera.h): eye point, look-at point, field of view, aspect
    ratio, near and far planes. *)
Record CameraPersp : Type := mkCameraPersp {
  mEyePoint : Vec3f;
  mCenterOfInterestPoint : Vec3f;
  mFov : R;
  mAspectRatio : R;
  mNearClip : R;
  mFarClip : R
}.

(** Which of its three sets of matrices a stereo camera hands out. *)
Inductive StereoEye : Type := EyeMono | EyeLeft | EyeRight.

(** Modelled from the spec: [CameraStereo] (cinder/Camera.h), the base
    camera plus the two stereo parameters, focal length and eye separation,
    and the eye that is active. *)
Record CameraStereo : Type := mkCameraStereo {
  base : CameraPersp;
  mFocalLength : R;
  mEyeSeparation : R;
  mActiveEye : StereoEye
}.

Module Camera.

(** Modelled from the spec: the getters read the stored parameters. *)
Definition getEyePoint (c : CameraStereo) : Vec3f := mEyePoint (base c).
Definition getCenterOfInterestPoint (c : CameraStereo) : Vec3f :=
  mCenterOfInterestPoint (base c).
Definition getFov (c : CameraStereo) : R := mFov (base c).
Definition getAspectRatio (c : CameraStereo) : R := mAspectRatio (base c).
Definition getFocalLength (c : CameraStereo) : R := mFocalLength c.
Definition getEyeSeparation (c : CameraStereo) : R := mEyeSeparation c.

Definition withBase (f : CameraPersp -> CameraPersp) (c : CameraStereo)
  : CameraStereo :=
  mkCameraStereo (f (base c)) (mFocalLength c) (mEyeSeparation c) (mActiveEye c).

(** Modelled from the spec: the setters of the base camera store the value
    they are given and touch nothing else. *)
Definition setEyePoint (p : Vec3f) : CameraStereo -> CameraStereo :=
  withBase (fun b => mkCameraPersp p (mCenterOfInterestPoint b) (mFov b)
                                   (mAspectRatio b) (mNearClip b) (mFarClip b)).

(** Modelled from the spec: see [setEyePoint]. *)
Definition setCenterOfInterestPoint (p : Vec3f) : CameraStereo -> CameraStereo :=
  withBase (fun b => mkCameraPersp (mEyePoint b) p (mFov b)
                                   (mAspectRatio b) (mNearClip b) (mFarClip b)).

(** Modelled from the spec: see [setEyePoint]. *)
Definition setFov (v : R) : CameraStereo -> CameraStereo :=
  withBase (fun b => mkCameraPersp (mEyePoint b) (mCenterOfInterestPoint b) v
                                   (mAspectRatio b) (mNearClip b) (mFarClip b)).

(** Modelled from the spec: [setAspectRatio] changes the projection's
    horizontal extent only. *)
Definition setAspectRatio (v : R) : CameraStereo -> CameraStereo :=
  withBase (fun b => mkCameraPersp (mEyePoint b) (mCenterOfInterestPoint b)
                                   (mFov b) v (mNearClip b) (mFarClip b)).

(** Modelled from the spec: [setFocalLength] sets the focal length alone
    and leaves the eye separation as it is. *)
Definition setFocalLength (d : R) (c : CameraStereo) : CameraStereo :=
  mkCameraStereo (base c) d (mEyeSeparation c) (mActiveEye c).

(** Modelled from the spec: [setEyeSeparation] stores the distance between
    the two virtual eyes. *)
Definition setEyeSeparation (d : R) (c : CameraStereo) : CameraStereo :=
  mkCameraStereo (base c) (mFocalLength c) d (mActiveEye c).

(** The fixed ratio of eye separation to focal length used by [setFocus]. *)
Definition focusRatio : R := 1 / 30.

(** Modelled from the spec: [setFocus] sets the focal length to the
    distance and recomputes the eye separation as a constant fraction of
    it (1/30). *)
Definition setFocus (d : R) (c : CameraStereo) : CameraStereo :=
  mkCameraStereo (base c) d (d * focusRatio) (mActiveEye c).

(** Modelled from the spec: selecting the matrices of one eye, or of the
    mono camera. *)
Definition enableStereoLeft (c : CameraStereo) : CameraStereo :=
  mkCameraStereo (base c) (mFocalLength c) (mEyeSeparation c) EyeLeft.

(** Modelled from the spec: see [enableStereoLeft]. *)
Definition enableStereoRight (c : CameraStereo) : CameraStereo :=
  mkCameraStereo (base c) (mFocalLength c) (mEyeSeparation c) EyeRight.

(** Modelled from the spec: see [enableStereoLeft]. *)
Definition disableStereo (c : CameraStereo) : CameraStereo :=
  mkCameraStereo (base c) (mFocalLength c) (mEyeSeparation c) EyeMono.

End Camera.

(* ===================================================================== *)
(** * The auto-focus helper *)
(* ===================================================================== *)

(** Modelled from the spec: the state of [gl::CameraStereoAutoFocuser]
    (cinder/gl/CameraStereoAutoFocuser.h) that the sample reads and
    writes: the depth fraction and the adjustment speed.  The focal length
    the helper smooths is the one of the camera it is handed. *)
Record CameraStereoAutoFocuser : Type := mkAutoFocuser {
  mDepth : R;
  mSpeed : R
}.

(** What one frame supplies to the helper from outside the application:
    the time since the previous frame and, when there is one, the distance
    read back from the depth buffer. *)
Record FrameInput : Type := mkFrameInput {
  deltaTime : R;
  depthSample : option R
}.

Module AutoFocuser.

(** Modelled from the spec: a new helper has depth fraction 1.0 (focus on
    the nearest surveyed object); the spec names no default speed, so it
    is an argument. *)
Definition create (speed : R) : CameraStereoAutoFocuser := mkAutoFocuser 1 speed.

(** Modelled from the spec: the two getters read the stored options. *)
Definition getAutoFocusDepth (af : CameraStereoAutoFocuser) : R := mDepth af.
Definition getAutoFocusSpeed (af : CameraStereoAutoFocuser) : R := mSpeed af.

(** Modelled from the spec: the depth fraction is a configuration option
    mutable at run time.  The spec gives its range, not what the setter
    does with a factor outside it; here the setter stores the factor it
    is given. *)
Definition setAutoFocusDepth (factor : R) (af : CameraStereoAutoFocuser)
  : CameraStereoAutoFocuser :=
  mkAutoFocuser factor (mSpeed af).

(** Modelled from the spec: the adjustment speed is a configuration option
    mutable at run time.  The spec gives its range, not what the setter
    does with a factor outside it; here the setter stores the factor it
    is given. *)
Definition setAutoFocusSpeed (factor : R) (af : CameraStereoAutoFocuser)
  : CameraStereoAutoFocuser :=
  mkAutoFocuser (mDepth af) factor.

(** Modelled from the spec: step 3 of the controller's update, "move the
    current focal length toward the target by at most [maxStep]". *)
Definition moveToward (current target maxStep : R) : R :=
  let delta := target - current in
  if Rlt_dec maxStep delta then current + maxStep
  else if Rlt_dec delta (- maxStep) then current - maxStep
  else target.

Section Limits.

(** The controller's fixed constants: the clamping range of the target and
    the factor [k] of the distance-based target. *)
Variables minFocalLength maxFocalLength distanceFactor : R.

(** Modelled from the spec: step 1 of the controller's update, the raw
    target of each signal source.  [DistanceToTarget] (the sample's
    [autoFocus( cam, false )]) takes
    [min(maxFocalLength, distance(eyePoint, centerOfInterest) * k)];
    [SceneDepthSample] ([autoFocus( cam, true )]) takes the distance read
    from the depth buffer, and has no target when the sample is missing. *)
Definition rawTarget (fr : FrameInput) (cam : CameraStereo) (useDepth : bool)
  : option R :=
  if useDepth then depthSample fr
  else
    let d := Vec3.length (Vec3.sub (Camera.getCenterOfInterestPoint cam)
                                   (Camera.getEyePoint cam)) in
    Some (math.min maxFocalLength (d * distanceFactor)).

(** Modelled from the spec: [CameraStereoAutoFocuser::autoFocus], the
    controller's update.  The raw target is clamped to
    [[minFocalLength, maxFocalLength]], the camera's focal length moves
    toward it by at most [adjustmentSpeed * deltaTime], and the result is
    applied with [setFocalLength]; a missing depth sample leaves the
    camera as it was.  The spec leaves open how the depth fraction enters
    the target, whether the step starts from an estimate of the
    controller's own, and whether the result is applied with
    [setFocalLength] or [setFocus]; the statements below use of this
    function only that it leaves the base camera as it is. *)
Definition autoFocus (fr : FrameInput) (af : CameraStereoAutoFocuser)
    (cam : CameraStereo) (useDepth : bool) : CameraStereo :=
  match rawTarget fr cam useDepth with
  | None => cam
  | Some raw =>
      let target := math.clamp raw minFocalLength maxFocalLength in
      let f := moveToward (Camera.getFocalLength cam) target
                          (getAutoFocusSpeed af * deltaTime fr) in
      Camera.setFocalLength f cam
  end.

End Limits.

End AutoFocuser.

(* ===================================================================== *)
(** * The orbit helper and the input events *)
(* ===================================================================== *)

(** Modelled from the spec: [MayaCamUI] (cinder/MayaCamUI.h), the orbit
    helper of the input layer: the camera it currently steers, the camera
    and the mouse position at the start of the drag. *)
Record MayaCamUI : Type := mkMayaCamUI {
  mInitialMousePos : Vec2i;
  mCurrentCam : CameraPersp;
  mInitialCam : CameraPersp
}.

Module MayaCam.

(** Modelled from the spec: [getCamera] returns the camera the helper
    steers. *)
Definition getCamera (m : MayaCamUI) : CameraPersp := mCurrentCam m.

(** Modelled from the spec: [setCurrentCam] hands the helper the base part
    of the camera to steer. *)
Definition setCurrentCam (c : CameraStereo) (m : MayaCamUI) : MayaCamUI :=
  mkMayaCamUI (mInitialMousePos m) (base c) (mInitialCam m).

End MayaCam.

(** The key codes [keyDown] distinguishes; every other code is
    [KEY_other]. *)
Inductive KeyCode : Type :=
  | KEY_ESCAPE | KEY_f | KEY_s | KEY_v
  | KEY_1 | KEY_2 | KEY_3 | KEY_4
  | KEY_UP | KEY_DOWN | KEY_SPACE | KEY_LEFT | KEY_RIGHT
  | KEY_other (code : Z).

Record KeyEvent : Type := mkKeyEvent { getCode : KeyCode }.

Record MouseEvent : Type := mkMouseEvent {
  getPos : Vec2i;
  isLeftDown : bool;
  isMiddleDown : bool;
  isRightDown : bool
}.

Record ResizeEvent : Type := mkResizeEvent {
  getWidth : Z;
  getHeight : Z
}.

(** Modelled from the spec: the resize handler is supplied the new aspect
    ratio, width over height. *)
Definition getAspectRatio (e : ResizeEvent) : R :=
  IZR (getWidth e) / IZR (getHeight e).

(* ===================================================================== *)
(** * The application object *)
(* ===================================================================== *)

(** [typedef enum { ... } AutoFocusMethod]. *)
Inductive AutoFocusMethod : Type :=
  | SET_FOCAL_LENGTH | SET_FOCUS | AUTO_FOCUS_SIMPLE | AUTO_FOCUS_DEPTH.

(** The enumerators' integer values, in declaration order. *)
Definition AutoFocusMethod_value (m : AutoFocusMethod) : Z :=
  match m with
  | SET_FOCAL_LENGTH => 0
  | SET_FOCUS => 1
  | AUTO_FOCUS_SIMPLE => 2
  | AUTO_FOCUS_DEPTH => 3
  end.

(** [m >= AUTO_FOCUS_SIMPLE], the comparison of [keyDown]. *)
Definition geAutoFocusSimple (m : AutoFocusMethod) : bool :=
  (AutoFocusMethod_value AUTO_FOCUS_SIMPLE <=? AutoFocusMethod_value m)%Z.

(** Modelled from the spec: the part of [AppBasic] (cinder/app/AppBasic.h)
    the handlers act on: the quit request, the full-screen and vertical
    sync switches and the window size. *)
Record AppBasic : Type := mkAppBasic {
  mQuit : bool;
  mFullScreen : bool;
  mVerticalSync : bool;
  mWindowWidth : Z;
  mWindowHeight : Z
}.

(** [class StereoscopicRenderingApp : public AppBasic].  [mAssets] stands
    for [mShader && mMesh && mNote]. *)
Record StereoscopicRenderingApp : Type := mkApp {
  host : AppBasic;
  mIsStereo : bool;
  mFocusMethod : AutoFocusMethod;
  mMayaCam : MayaCamUI;
  mCamera : CameraStereo;
  mAF : CameraStereoAutoFocuser;
  mAssets : bool
}.

Definition withHost (h : AppBasic) (a : StereoscopicRenderingApp) :=
  mkApp h (mIsStereo a) (mFocusMethod a) (mMayaCam a) (mCamera a) (mAF a) (mAssets a).
Definition withIsStereo (b : bool) (a : StereoscopicRenderingApp) :=
  mkApp (host a) b (mFocusMethod a) (mMayaCam a) (mCamera a) (mAF a) (mAssets a).
Definition withFocusMethod (m : AutoFocusMethod) (a : StereoscopicRenderingApp) :=
  mkApp (host a) (mIsStereo a) m (mMayaCam a) (mCamera a) (mAF a) (mAssets a).
Definition withMayaCam (m : MayaCamUI) (a : StereoscopicRenderingApp) :=
  mkApp (host a) (mIsStereo a) (mFocusMethod a) m (mCamera a) (mAF a) (mAssets a).
Definition withCamera (c : CameraStereo) (a : StereoscopicRenderingApp) :=
  mkApp (host a) (mIsStereo a) (mFocusMethod a) (mMayaCam a) c (mAF a) (mAssets a).
Definition withAF (f : CameraStereoAutoFocuser) (a : StereoscopicRenderingApp) :=
  mkApp (host a) (mIsStereo a) (mFocusMethod a) (mMayaCam a) (mCamera a) f (mAssets a).
Definition withAssets (b : bool) (a : StereoscopicRenderingApp) :=
  mkApp (host a) (mIsStereo a) (mFocusMethod a) (mMayaCam a) (mCamera a) (mAF a) b.

(** [quit()], [setFullScreen] and [gl::enableVerticalSync], each as the
    switch of the host it sets.  What size the window has after a switch
    to or from full screen is the framework's doing and is not modelled:
    the size recorded in the host is left as it is, and no statement
    relies on it across a key event. *)
Definition quit (a : StereoscopicRenderingApp) : StereoscopicRenderingApp :=
  withHost (mkAppBasic true (mFullScreen (host a)) (mVerticalSync (host a))
                       (mWindowWidth (host a)) (mWindowHeight (host a))) a.
Definition setFullScreen (b : bool) (a : StereoscopicRenderingApp) :=
  withHost (mkAppBasic (mQuit (host a)) b (mVerticalSync (host a))
                       (mWindowWidth (host a)) (mWindowHeight (host a))) a.
Definition enableVerticalSync (b : bool) (a : StereoscopicRenderingApp) :=
  withHost (mkAppBasic (mQuit (host a)) (mFullScreen (host a)) b
                       (mWindowWidth (host a)) (mWindowHeight (host a))) a.

(* ===================================================================== *)
(** * The handlers *)
(* ===================================================================== *)

(** [prepareSettings]: a 960 x 540 window at up to 300 frames a second. *)
Record Settings : Type := mkSettings {
  windowWidth : Z;
  windowHeight : Z;
  frameRate : R
}.

Definition prepareSettings (_ : Settings) : Settings := mkSettings 960 540 300.

(** [setup].  [loaded] tells whether the shader and the two meshes could
    be loaded; when not, the handler asks the application to quit. *)
Definition setup (loaded : bool) (app : StereoscopicRenderingApp)
  : StereoscopicRenderingApp :=
  let app := withIsStereo true app in
  let app := withFocusMethod AUTO_FOCUS_DEPTH app in
  let app := withCamera (Camera.setEyePoint (mkVec3f 0.2 1.3 (-11.5)) (mCamera app)) app in
  let app := withCamera (Camera.setCenterOfInterestPoint (mkVec3f 0.5 1.5 (-0.1))
                                                         (mCamera app)) app in
  let app := withCamera (Camera.setFov 60 (mCamera app)) app in
  let app := withMayaCam (MayaCam.setCurrentCam (mCamera app) (mMayaCam app)) app in
  if loaded then withAssets true app else quit app.

(** [keyDown]. *)
Definition keyDown (event : KeyEvent) (app : StereoscopicRenderingApp)
  : StereoscopicRenderingApp :=
  match getCode event with
  | KEY_ESCAPE => quit app
  | KEY_f => setFullScreen (negb (mFullScreen (host app))) app
  | KEY_s => withIsStereo (negb (mIsStereo app)) app
  | KEY_v => enableVerticalSync (negb (mVerticalSync (host app))) app
  | KEY_1 => withFocusMethod SET_FOCAL_LENGTH app
  | KEY_2 => withFocusMethod SET_FOCUS app
  | KEY_3 => withFocusMethod AUTO_FOCUS_SIMPLE app
  | KEY_4 => withFocusMethod AUTO_FOCUS_DEPTH app
  | KEY_UP =>
      if geAutoFocusSimple (mFocusMethod app) then
        withAF (AutoFocuser.setAutoFocusDepth
                  (AutoFocuser.getAutoFocusDepth (mAF app) + 0.05) (mAF app)) app
      else app
  | KEY_DOWN =>
      if geAutoFocusSimple (mFocusMethod app) then
        withAF (AutoFocuser.setAutoFocusDepth
                  (AutoFocuser.getAutoFocusDepth (mAF app) - 0.05) (mAF app)) app
      else app
  | KEY_SPACE => withAF (AutoFocuser.setAutoFocusDepth 1 (mAF app)) app
  | KEY_LEFT =>
      withAF (AutoFocuser.setAutoFocusSpeed
                (AutoFocuser.getAutoFocusSpeed (mAF app) - 0.01) (mAF app)) app
  | KEY_RIGHT =>
      withAF (AutoFocuser.setAutoFocusSpeed
                (AutoFocuser.getAutoFocusSpeed (mAF app) + 0.01) (mAF app)) app
  | KEY_other _ => app
  end.

(** A sequence of key events, handled one after the other. *)
Definition keysDown (events : list KeyEvent) (app : StereoscopicRenderingApp)
  : StereoscopicRenderingApp :=
  fold_left (fun a e => keyDown e a) events app.

(** [resize]. *)
Definition resize (event : ResizeEvent) (app : StereoscopicRenderingApp)
  : StereoscopicRenderingApp :=
  let app := withCamera (Camera.setAspectRatio (getAspectRatio event) (mCamera app)) app in
  withMayaCam (MayaCam.setCurrentCam (mCamera app) (mMayaCam app)) app.

Section Handlers.

(** [MayaCamUI::mouseDown] and [MayaCamUI::mouseDrag]: the orbit the
    helper derives from the mouse is whatever the framework computes. *)
Variable MayaCam_mouseDown : Vec2i -> MayaCamUI -> MayaCamUI.
Variable MayaCam_mouseDrag : Vec2i -> bool -> bool -> bool -> MayaCamUI -> MayaCamUI.

(** The constants of the auto-focus helper. *)
Variables minFocalLength maxFocalLength distanceFactor : R.

(** [mouseDown]. *)
Definition mouseDown (event : MouseEvent) (app : StereoscopicRenderingApp)
  : StereoscopicRenderingApp :=
  withMayaCam (MayaCam_mouseDown (getPos event) (mMayaCam app)) app.

(** [mouseDrag]. *)
Definition mouseDrag (event : MouseEvent) (app : StereoscopicRenderingApp)
  : StereoscopicRenderingApp :=
  let app := withMayaCam (MayaCam_mouseDrag (getPos event) (isLeftDown event)
                            (isMiddleDown event) (isRightDown event) (mMayaCam app)) app in
  let app := withCamera (Camera.setEyePoint
                           (mEyePoint (MayaCam.getCamera (mMayaCam app)))
                           (mCamera app)) app in
  withCamera (Camera.setCenterOfInterestPoint
                (mCenterOfInterestPoint (MayaCam.getCamera (mMayaCam app)))
                (mCamera app)) app.

(** [update].  [fr] is what the frame supplies to [autoFocus]. *)
Definition update (fr : FrameInput) (app : StereoscopicRenderingApp)
  : StereoscopicRenderingApp :=
  match mFocusMethod app with
  | SET_FOCAL_LENGTH =>
      let d := Vec3.length (Vec3.sub (Camera.getCenterOfInterestPoint (mCamera app))
                                     (Camera.getEyePoint (mCamera app))) in
      let f := math.min 5 (d * 0.5) in
      let app := withCamera (Camera.setFocalLength f (mCamera app)) app in
      withCamera (Camera.setEyeSeparation 0.05 (mCamera app)) app
  | SET_FOCUS =>
      let d := Vec3.length (Vec3.sub (Camera.getCenterOfInterestPoint (mCamera app))
                                     (Camera.getEyePoint (mCamera app))) in
      let f := math.min 5 (d * 0.5) in
      withCamera (Camera.setFocus f (mCamera app)) app
  | AUTO_FOCUS_SIMPLE =>
      withCamera (AutoFocuser.autoFocus minFocalLength maxFocalLength distanceFactor
                    fr (mAF app) (mCamera app) false) app
  | AUTO_FOCUS_DEPTH =>
      withCamera (AutoFocuser.autoFocus minFocalLength maxFocalLength distanceFactor
                    fr (mAF app) (mCamera app) true) app
  end.

End Handlers.

(* ===================================================================== *)
(** * Drawing *)
(* ===================================================================== *)

(** [Area( x1, y1, x2, y2 )]: a rectangle of pixels, [x1 <= x < x2] and
    [y1 <= y < y2]. *)
Record Area : Type := mkArea { x1 : Z; y1 : Z; x2 : Z; y2 : Z }.

Definition Area_containsX (a : Area) (x : Z) : Prop := (x1 a <= x < x2 a)%Z.

Record Color : Type := mkColor { red : R; green : R; blue : R }.

(** What reaches the frame buffer: a rendering of the scene, with the
    viewport and the matrices current at that moment, or a rendering of
    the user interface, with the viewport and the four numbers shown. *)
Inductive Pass : Type :=
  | ScenePass (viewport : Area) (matrices : option CameraStereo) (shaded : bool)
  | UIPass (viewport : Area) (focalLength eyeSeparation depth speed : R).

(** Modelled from the spec: the part of the OpenGL context [draw] acts on
    through the [gl::] functions (cinder/gl/gl.h): the viewport and the
    matrices, each with its stack, the depth flags, and the frame drawn so
    far. *)
Record GLContext : Type := mkGL {
  glViewport : Area;
  glAttribStack : list Area;
  glMatrices : option CameraStereo;
  glMatrixStack : list (option CameraStereo);
  glDepthRead : bool;
  glDepthWrite : bool;
  glClearColor : option Color;
  glFrame : list Pass
}.

(** [draw] runs on the application object and the context together. *)
Record World : Type := mkWorld {
  wApp : StereoscopicRenderingApp;
  wGL : GLContext
}.

Module gl.

(** Modelled from the spec: the [gl::] functions, each as its effect on the
    context; none of them touches the application object. *)
Definition onContext (f : GLContext -> GLContext) : state World unit :=
  mkState (fun w => (tt, mkWorld (wApp w) (f (wGL w)))).

(** Modelled from the spec: [gl::clear] starts a new frame in the given
    colour. *)
Definition clear (c : Color) : state World unit :=
  onContext (fun g => mkGL (glViewport g) (glAttribStack g) (glMatrices g)
                           (glMatrixStack g) (glDepthRead g) (glDepthWrite g)
                           (Some c) []).

Definition setDepthRead (b : bool) : state World unit :=
  onContext (fun g => mkGL (glViewport g) (glAttribStack g) (glMatrices g)
                           (glMatrixStack g) b (glDepthWrite g)
                           (glClearColor g) (glFrame g)).

Definition setDepthWrite (b : bool) : state World unit :=
  onContext (fun g => mkGL (glViewport g) (glAttribStack g) (glMatrices g)
                           (glMatrixStack g) (glDepthRead g) b
                           (glClearColor g) (glFrame g)).

Definition enableDepthRead := setDepthRead true.
Definition disableDepthRead := setDepthRead false.
Definition enableDepthWrite := setDepthWrite true.
Definition disableDepthWrite := setDepthWrite false.

(** Modelled from the spec: [gl::pushMatrices] and [gl::popMatrices] save
    and restore the current matrices. *)
Definition pushMatrices : state World unit :=
  onContext (fun g => mkGL (glViewport g) (glAttribStack g) (glMatrices g)
                           (glMatrices g :: glMatrixStack g) (glDepthRead g)
                           (glDepthWrite g) (glClearColor g) (glFrame g)).

Definition popMatrices : state World unit :=
  onContext (fun g =>
    match glMatrixStack g with
    | [] => g
    | m :: rest => mkGL (glViewport g) (glAttribStack g) m rest (glDepthRead g)
                        (glDepthWrite g) (glClearColor g) (glFrame g)
    end).

(** Modelled from the spec: [glPushAttrib( GL_VIEWPORT_BIT )] and
    [glPopAttrib()] save and restore the viewport. *)
Definition pushViewport : state World unit :=
  onContext (fun g => mkGL (glViewport g) (glViewport g :: glAttribStack g)
                           (glMatrices g) (glMatrixStack g) (glDepthRead g)
                           (glDepthWrite g) (glClearColor g) (glFrame g)).

Definition popViewport : state World unit :=
  onContext (fun g =>
    match glAttribStack g with
    | [] => g
    | v :: rest => mkGL v rest (glMatrices g) (glMatrixStack g) (glDepthRead g)
                        (glDepthWrite g) (glClearColor g) (glFrame g)
    end).

Definition setViewport (a : Area) : state World unit :=
  onContext (fun g => mkGL a (glAttribStack g) (glMatrices g) (glMatrixStack g)
                           (glDepthRead g) (glDepthWrite g) (glClearColor g)
                           (glFrame g)).

(** Modelled from the spec: [gl::setMatrices( cam )] loads the view and
    projection matrices the camera hands out, those of its active eye. *)
Definition setMatrices (cam : CameraStereo) : state World unit :=
  onContext (fun g => mkGL (glViewport g) (glAttribStack g) (Some cam)
                           (glMatrixStack g) (glDepthRead g) (glDepthWrite g)
                           (glClearColor g) (glFrame g)).

(** Modelled from the spec: a draw call adds one pass to the frame. *)
Definition emit (p : GLContext -> Pass) : state World unit :=
  onContext (fun g => mkGL (glViewport g) (glAttribStack g) (glMatrices g)
                           (glMatrixStack g) (glDepthRead g) (glDepthWrite g)
                           (glClearColor g) (glFrame g ++ [p g])).

End gl.

Local Open Scope monad_scope.

Definition getApp : state World StereoscopicRenderingApp :=
  mkState (fun w => (wApp w, w)).

Definition onCamera (f : CameraStereo -> CameraStereo) : state World unit :=
  mkState (fun w => (tt, mkWorld (withCamera (f (mCamera (wApp w))) (wApp w)) (wGL w))).

Definition getWindowWidth : state World Z :=
  app <- getApp ;; ret (mWindowWidth (host app)).

Definition getWindowHeight : state World Z :=
  app <- getApp ;; ret (mWindowHeight (host app)).

(** [render]: the scene (trombone, notes, grid, floor) drawn once with the
    current viewport and matrices; the meshes only when they are loaded. *)
Definition render : state World unit :=
  app <- getApp ;;
  gl.emit (fun g => ScenePass (glViewport g) (glMatrices g) (mAssets app)).

(** [renderUI]: the four numbers, drawn into the current viewport. *)
Definition renderUI : state World unit :=
  app <- getApp ;;
  gl.emit (fun g => UIPass (glViewport g)
                           (Camera.getFocalLength (mCamera app))
                           (Camera.getEyeSeparation (mCamera app))
                           (AutoFocuser.getAutoFocusDepth (mAF app))
                           (AutoFocuser.getAutoFocusSpeed (mAF app))).

(** [draw]. *)
Definition draw : state World unit :=
  w <- getWindowWidth ;;
  h <- getWindowHeight ;;
  gl.clear (mkColor 0.8 0.8 0.8) ;;
  gl.enableDepthRead ;;
  gl.enableDepthWrite ;;
  gl.pushMatrices ;;
  app <- getApp ;;
  (if mIsStereo app then
     gl.pushViewport ;;
     gl.setViewport (mkArea 0 0 (Z.quot w 2) h) ;;
     onCamera Camera.enableStereoLeft ;;
     app <- getApp ;;
     gl.setMatrices (mCamera app) ;;
     render ;;
     gl.setViewport (mkArea (Z.quot w 2) 0 w h) ;;
     onCamera Camera.enableStereoRight ;;
     app <- getApp ;;
     gl.setMatrices (mCamera app) ;;
     render ;;
     gl.popViewport
   else
     onCamera Camera.disableStereo ;;
     app <- getApp ;;
     gl.setMatrices (mCamera app) ;;
     render) ;;
  gl.popMatrices ;;
  gl.disableDepthWrite ;;
  gl.disableDepthRead ;;
  app <- getApp ;;
  (if mIsStereo app then
     gl.pushViewport ;;
     gl.setViewport (mkArea 0 0 (Z.quot w 2) h) ;;
     renderUI ;;
     gl.setViewport (mkArea (Z.quot w 2) 0 w h) ;;
     renderUI ;;
     gl.popViewport
   else
     renderUI).

(** The scene passes of a frame, each with its viewport and the eye whose
    matrices were loaded. *)
Fixpoint scenePasses (frame : list Pass) : list (Area * option StereoEye) :=
  match frame with
  | [] => []
  | ScenePass v m _ :: rest => (v, option_map mActiveEye m) :: scenePasses rest
  | UIPass _ _ _ _ _ :: rest => scenePasses rest
  end.

Local Close Scope monad_scope.

(* ===================================================================== *)
(** * Vocabulary of the statements *)
(* ===================================================================== *)

(** The mode a key selects, for the four keys that select one. *)
Definition modeOfKey (k : KeyCode) : option AutoFocusMethod :=
  match k with
  | KEY_1 => Some SET_FOCAL_LENGTH
  | KEY_2 => Some SET_FOCUS
  | KEY_3 => Some AUTO_FOCUS_SIMPLE
  | KEY_4 => Some AUTO_FOCUS_DEPTH
  | _ => None
  end.

(** How many events of a sequence satisfy [p]. *)
Definition countKeys (p : KeyEvent -> bool) (events : list KeyEvent) : nat :=
  List.length (filter p events).




(** The depth fraction and the speed stored in the application's helper. *)
Definition depthOf (app : StereoscopicRenderingApp) : R :=
  AutoFocuser.getAutoFocusDepth (mAF app).
Definition speedOf (app : StereoscopicRenderingApp) : R :=
  AutoFocuser.getAutoFocusSpeed (mAF app).

(** The stereo parameters of the application's camera. *)
Definition focalLengthOf (app : StereoscopicRenderingApp) : R :=
  Camera.getFocalLength (mCamera app).
Definition eyeSeparationOf (app : StereoscopicRenderingApp) : R :=
  Camera.getEyeSeparation (mCamera app).

(** ** Objects for the examples *)

Definition originCamera : CameraPersp :=
  mkCameraPersp (mkVec3f 0 0 0) (mkVec3f 0 0 (-1)) 35 (4 / 3) 1 1000.

(** An application object as it stands before [setup]: a 960 x 540 window,
    a camera with focal length 1 and eye separation 0.05, a helper created
    with speed 0.05. *)
Definition freshApp : StereoscopicRenderingApp :=
  mkApp (mkAppBasic false false false 960 540)
        false SET_FOCAL_LENGTH
        (mkMayaCamUI (mkVec2i 0 0) originCamera originCamera)
        (mkCameraStereo originCamera 1 0.05 EyeMono)
        (AutoFocuser.create 0.05)
        false.

(** The application after a successful [setup]. *)
Definition readyApp : StereoscopicRenderingApp := setup true freshApp.

(** The application switched to each of the two distance-based modes. *)
Definition lengthApp : StereoscopicRenderingApp := keyDown (mkKeyEvent KEY_1) readyApp.
Definition focusApp : StereoscopicRenderingApp := keyDown (mkKeyEvent KEY_2) readyApp.

(** A frame one second after the previous one, with a depth sample at
    distance 3. *)
Definition oneSecond : FrameInput := mkFrameInput 1 (Some 3).

(** The application with the center of interest moved onto the eye
    point, in the mode SET_FOCAL_LENGTH. *)
Definition degenerateApp : StereoscopicRenderingApp :=
  withCamera (Camera.setCenterOfInterestPoint (Camera.getEyePoint (mCamera lengthApp))
                                              (mCamera lengthApp)) lengthApp.


(** A context with the whole window as its viewport. *)
Definition freshGL : GLContext :=
  mkGL (mkArea 0 0 960 540) [] None [] false false None [].

(* ===================================================================== *)
(** * The scene, draw call by draw call *)
(* ===================================================================== *)

(** What [render] sends down the pipeline.  The model-view matrix is kept
    as the list of the transformations multiplied onto it, in order. *)
Inductive Transform : Type :=
  | Translate (v : Vec3f)
  | Rotate (degrees : Vec3f)
  | Scale (v : Vec3f).

(** [mMesh], the trombone, and [mNote]. *)
Inductive Mesh : Type := Trombone | Note.

(** The argument of [gl::color]: [Color( r, g, b )],
    [Color( CM_HSV, h, s, v )] or [ColorA( r, g, b, a )]. *)
Inductive Paint : Type :=
  | PaintRGB (r g b : R)
  | PaintHSV (h s v : R)
  | PaintRGBA (r g b a : R).

(** A draw call with the model-view matrix and the colour current when it
    is issued; a mesh also with whether the shader is bound, the cube with
    whether alpha blending is on. *)
Inductive DrawCall : Type :=
  | DrawMesh (mesh : Mesh) (modelView : list Transform) (paint : Paint)
             (shaded : bool)
  | DrawLine (from to : Vec3f) (modelView : list Transform) (paint : Paint)
  | DrawCube (center size : Vec3f) (modelView : list Transform) (paint : Paint)
             (blended : bool).

(** The part of the OpenGL state [render] acts on. *)
Record Pipeline : Type := mkPipeline {
  plModelView : list Transform;
  plModelViewStack : list (list Transform);
  plPaint : Paint;
  plShaderBound : bool;
  plAlphaBlending : bool;
  plCalls : list DrawCall
}.

Module Vec3more.

(** [Vec3f::yAxis()]. *)
Definition yAxis : Vec3f := mkVec3f 0 1 0.

(** [operator*] of [Vec3f] with a float, coordinate by coordinate. *)
Definition mul (v : Vec3f) (s : R) : Vec3f :=
  mkVec3f (vx v * s) (vy v * s) (vz v * s).

End Vec3more.

(** The quotient truncated toward zero, as [fmodf] of <math.h> takes it. *)
Definition truncate (x : R) : Z :=
  if Rle_dec 0 x then Int_part x else (- Int_part (- x))%Z.

(** [fmodf( x, y )]: [x] minus [y] times the truncated quotient. *)
Definition fmodf (x y : R) : R := x - IZR (truncate (x / y)) * y.

Module pipeline.

Local Open Scope monad_scope.

Definition onPipeline (f : Pipeline -> Pipeline) : state Pipeline unit :=
  mkState (fun p => (tt, f p)).

(** [gl::pushModelView] and [gl::popModelView]. *)
Definition pushModelView : state Pipeline unit :=
  onPipeline (fun p => mkPipeline (plModelView p)
                         (plModelView p :: plModelViewStack p) (plPaint p)
                         (plShaderBound p) (plAlphaBlending p) (plCalls p)).

Definition popModelView : state Pipeline unit :=
  onPipeline (fun p =>
    match plModelViewStack p with
    | [] => p
    | m :: rest => mkPipeline m rest (plPaint p) (plShaderBound p)
                              (plAlphaBlending p) (plCalls p)
    end).

(** [gl::translate], [gl::rotate], [gl::scale]: one more transformation on
    the current model-view matrix. *)
Definition transform (t : Transform) : state Pipeline unit :=
  onPipeline (fun p => mkPipeline (plModelView p ++ [t]) (plModelViewStack p)
                         (plPaint p) (plShaderBound p) (plAlphaBlending p)
                         (plCalls p)).

Definition translate (v : Vec3f) : state Pipeline unit := transform (Translate v).
Definition rotate (v : Vec3f) : state Pipeline unit := transform (Rotate v).
Definition scale (v : Vec3f) : state Pipeline unit := transform (Scale v).

(** [gl::color]. *)
Definition color (c : Paint) : state Pipeline unit :=
  onPipeline (fun p => mkPipeline (plModelView p) (plModelViewStack p) c
                         (plShaderBound p) (plAlphaBlending p) (plCalls p)).

(** [mShader.bind()] and [mShader.unbind()]. *)
Definition setShader (b : bool) : state Pipeline unit :=
  onPipeline (fun p => mkPipeline (plModelView p) (plModelViewStack p) (plPaint p)
                         b (plAlphaBlending p) (plCalls p)).

(** [gl::enableAlphaBlending] and [gl::disableAlphaBlending]. *)
Definition setAlphaBlending (b : bool) : state Pipeline unit :=
  onPipeline (fun p => mkPipeline (plModelView p) (plModelViewStack p) (plPaint p)
                         (plShaderBound p) b (plCalls p)).

Definition issue (c : Pipeline -> DrawCall) : state Pipeline unit :=
  onPipeline (fun p => mkPipeline (plModelView p) (plModelViewStack p) (plPaint p)
                         (plShaderBound p) (plAlphaBlending p)
                         (plCalls p ++ [c p])).

(** [gl::draw( mesh )], [gl::drawLine] and [gl::drawCube]. *)
Definition draw (m : Mesh) : state Pipeline unit :=
  issue (fun p => DrawMesh m (plModelView p) (plPaint p) (plShaderBound p)).
Definition drawLine (a b : Vec3f) : state Pipeline unit :=
  issue (fun p => DrawLine a b (plModelView p) (plPaint p)).
Definition drawCube (center size : Vec3f) : state Pipeline unit :=
  issue (fun p => DrawCube center size (plModelView p) (plPaint p)
                           (plAlphaBlending p)).

(** [for( int i = first; ...; ++i )] with [count] rounds left. *)
Fixpoint forCount (count : nat) (i : Z) (body : Z -> state Pipeline unit)
  : state Pipeline unit :=
  match count with
  | O => ret tt
  | S rest => body i ;; forCount rest (i + 1)%Z body
  end.

(** [for( int i = first; i <= last; ++i )]. *)
Definition forRange (first last : Z) (body : Z -> state Pipeline unit)
  : state Pipeline unit :=
  forCount (Z.to_nat (last - first + 1)) first body.

End pipeline.

Section Scene.

Local Open Scope monad_scope.

(** [Rand]: [nextFloat seed n] is the float the [n]-th call of
    [nextFloat()] returns after [seed( seed )]. *)
Variable nextFloat : Z -> nat -> R.

(** The three numbers [render] computes for note [i]. *)
Definition noteT (seconds : R) (i : Z) : R := nextFloat i 0 * 200 + 2 * seconds.
Definition noteR (seconds : R) (i : Z) : R := nextFloat i 1 * 360 + 60 * seconds.
Definition noteZ (seconds : R) (i : Z) : R := fmodf (5 * noteT seconds i) 200 - 100.

(** The body of [render], run at [seconds] elapsed, with [assets] for
    [mShader && mMesh && mNote]. *)
Definition renderScene (seconds : R) (assets : bool) : state Pipeline unit :=
  (if assets then
     pipeline.setShader true ;;
     pipeline.pushModelView ;;
     pipeline.color (PaintRGB 0.7 0.6 0) ;;
     pipeline.rotate (Vec3more.mul (Vec3more.mul Vec3more.yAxis 10) seconds) ;;
     pipeline.draw Trombone ;;
     pipeline.scale (mkVec3f 1 (-1) 1) ;;
     pipeline.draw Trombone ;;
     pipeline.popModelView ;;
     pipeline.forRange (-100) 100 (fun i =>
       let t := noteT seconds i in
       let r := noteR seconds i in
       let z := noteZ seconds i in
       pipeline.pushModelView ;;
       pipeline.color (PaintHSV (nextFloat i 2) 1 1) ;;
       pipeline.pushModelView ;;
       pipeline.translate (mkVec3f (IZR i * 0.5) (0.15 + 1 * Rabs (sin (3 * t))) (- z)) ;;
       pipeline.rotate (Vec3more.mul Vec3more.yAxis r) ;;
       pipeline.draw Note ;;
       pipeline.popModelView ;;
       pipeline.pushModelView ;;
       pipeline.scale (mkVec3f 1 (-1) 1) ;;
       pipeline.translate (mkVec3f (IZR i * 0.5) (0.15 + 1 * Rabs (sin (3 * t))) (- z)) ;;
       pipeline.rotate (Vec3more.mul Vec3more.yAxis r) ;;
       pipeline.draw Note ;;
       pipeline.popModelView ;;
       pipeline.popModelView) ;;
     pipeline.setShader false
   else ret tt) ;;
  pipeline.color (PaintRGB 0.8 0.8 0.8) ;;
  pipeline.forRange (-100) 100 (fun i =>
    pipeline.drawLine (mkVec3f (IZR i) 0 (-100)) (mkVec3f (IZR i) 0 100) ;;
    pipeline.drawLine (mkVec3f (-100) 0 (IZR i)) (mkVec3f 100 0 (IZR i))) ;;
  pipeline.setAlphaBlending true ;;
  pipeline.color (PaintRGBA 1 1 1 0.75) ;;
  pipeline.drawCube (mkVec3f 0 (-0.5) 0) (mkVec3f 200 1 200) ;;
  pipeline.setAlphaBlending false.

(** ** The same scene as a list *)

(** The integers [first], [first + 1], ..., [count] of them. *)
Fixpoint intRange (first : Z) (count : nat) : list Z :=
  match count with
  | O => []
  | S rest => first :: intRange (first + 1)%Z rest
  end.

(** Where note [i] is put and how it is turned. *)
Definition notePlace (seconds : R) (i : Z) : Vec3f :=
  mkVec3f (IZR i * 0.5) (0.15 + 1 * Rabs (sin (3 * noteT seconds i)))
          (- noteZ seconds i).
Definition noteTurn (seconds : R) (i : Z) : Vec3f :=
  Vec3more.mul Vec3more.yAxis (noteR seconds i).

(** The mirror in the floor plane. *)
Definition mirror : Transform := Scale (mkVec3f 1 (-1) 1).

(** The trombone and its reflection; note [i] and its reflection; the two
    grid lines through [i]; the floor. *)
Definition tromboneCalls (seconds : R) (mv : list Transform) : list DrawCall :=
  let turn := Rotate (Vec3more.mul (Vec3more.mul Vec3more.yAxis 10) seconds) in
  [ DrawMesh Trombone (mv ++ [turn]) (PaintRGB 0.7 0.6 0) true;
    DrawMesh Trombone ((mv ++ [turn]) ++ [mirror]) (PaintRGB 0.7 0.6 0) true ].

Definition noteCalls (seconds : R) (mv : list Transform) (i : Z) : list DrawCall :=
  [ DrawMesh Note ((mv ++ [Translate (notePlace seconds i)])
                     ++ [Rotate (noteTurn seconds i)])
             (PaintHSV (nextFloat i 2) 1 1) true;
    DrawMesh Note (((mv ++ [mirror]) ++ [Translate (notePlace seconds i)])
                     ++ [Rotate (noteTurn seconds i)])
             (PaintHSV (nextFloat i 2) 1 1) true ].

Definition gridCalls (mv : list Transform) (i : Z) : list DrawCall :=
  [ DrawLine (mkVec3f (IZR i) 0 (-100)) (mkVec3f (IZR i) 0 100) mv
             (PaintRGB 0.8 0.8 0.8);
    DrawLine (mkVec3f (-100) 0 (IZR i)) (mkVec3f 100 0 (IZR i)) mv
             (PaintRGB 0.8 0.8 0.8) ].

Definition floorCall (mv : list Transform) : DrawCall :=
  DrawCube (mkVec3f 0 (-0.5) 0) (mkVec3f 200 1 200) mv (PaintRGBA 1 1 1 0.75) true.

Definition sceneCalls (seconds : R) (assets : bool) (mv : list Transform)
  : list DrawCall :=
  (if assets
   then tromboneCalls seconds mv
          ++ flat_map (noteCalls seconds mv) (intRange (-100) 201)
   else [])
  ++ flat_map (gridCalls mv) (intRange (-100) 201)
  ++ [floorCall mv].

End Scene.

(** A point on the top face of the box with the given center and size. *)
Definition onTopFace (center size p : Vec3f) : Prop :=
  vy p = vy center + vy size / 2 /\
  Rabs (vx p - vx center) <= vx size / 2 /\
  Rabs (vz p - vz center) <= vz size / 2.

(** The meshes, lines and cubes among some draw calls. *)
Definition isMeshCall (c : DrawCall) : bool :=
  match c with DrawMesh _ _ _ _ => true | _ => false end.
Definition isLineCall (c : DrawCall) : bool :=
  match c with DrawLine _ _ _ _ => true | _ => false end.
Definition isCubeCall (c : DrawCall) : bool :=
  match c with DrawCube _ _ _ _ _ => true | _ => false end.

(** ** Where the scene lies *)

(** A draw call of the grid or of the floor, as [render] issues it under
    the model-view matrix [mv]: a line has both ends on the top face of
    the floor's box, and the box is the floor's. *)
Definition gridOnFloor (mv : list Transform) (c : DrawCall) : Prop :=
  match c with
  | DrawLine a b m _ =>
      m = mv /\
      onTopFace (mkVec3f 0 (-0.5) 0) (mkVec3f 200 1 200) a /\
      onTopFace (mkVec3f 0 (-0.5) 0) (mkVec3f 200 1 200) b
  | DrawCube center size m _ _ =>
      m = mv /\ center = mkVec3f 0 (-0.5) 0 /\ size = mkVec3f 200 1 200
  | DrawMesh _ _ _ _ => True
  end.

(** A place over the floor: within 50 of the middle across, between 0.15
    and 1.15 high, within 100 of the middle along. *)
Definition overFloor (p : Vec3f) : Prop :=
  -50 <= vx p <= 50 /\ 0.15 <= vy p <= 1.15 /\ -100 < vz p <= 100.

(** A note, as [render] draws it under [mv]: translated to a place over
    the floor and turned, directly or behind the mirror. *)
Definition notePlaced (mv : list Transform) (c : DrawCall) : Prop :=
  match c with
  | DrawMesh Note m _ _ =>
      exists place turn,
        (m = mv ++ [Translate place; Rotate turn]
         \/ m = mv ++ [mirror; Translate place; Rotate turn]) /\
        overFloor place
  | _ => True
  end.

(** A pipeline with nothing drawn yet. *)
Definition freshPipeline : Pipeline :=
  mkPipeline [] [] (PaintRGB 1 1 1) false false [].

(* ===================================================================== *)
(** * The handlers in sequence *)
(* ===================================================================== *)

(** The calls the framework makes on the application once [setup] has
    run. *)
Inductive AppEvent : Type :=
  | OnKeyDown (event : KeyEvent)
  | OnMouseDown (event : MouseEvent)
  | OnMouseDrag (event : MouseEvent)
  | OnResize (event : ResizeEvent)
  | OnUpdate (frame : FrameInput)
  | OnDraw.

Section EventLoop.

Variable MayaCam_mouseDown : Vec2i -> MayaCamUI -> MayaCamUI.
Variable MayaCam_mouseDrag : Vec2i -> bool -> bool -> bool -> MayaCamUI -> MayaCamUI.
Variables minFocalLength maxFocalLength distanceFactor : R.

(** One call: the handler for the event, on the application and, for
    [draw], on the context as well. *)
Definition dispatch (ev : AppEvent) (w : World) : World :=
  match ev with
  | OnKeyDown e => mkWorld (keyDown e (wApp w)) (wGL w)
  | OnMouseDown e => mkWorld (mouseDown MayaCam_mouseDown e (wApp w)) (wGL w)
  | OnMouseDrag e => mkWorld (mouseDrag MayaCam_mouseDrag e (wApp w)) (wGL w)
  | OnResize e => mkWorld (resize e (wApp w)) (wGL w)
  | OnUpdate fr =>
      mkWorld (update minFocalLength maxFocalLength distanceFactor fr (wApp w)) (wGL w)
  | OnDraw => execState draw w
  end.

Definition run (events : list AppEvent) (w : World) : World :=
  fold_left (fun w ev => dispatch ev w) events w.

End EventLoop.

(** ** More vocabulary *)

Definition isKey_s (e : KeyEvent) : bool :=
  match getCode e with KEY_s => true | _ => false end.
Definition isKey_f (e : KeyEvent) : bool :=
  match getCode e with KEY_f => true | _ => false end.
Definition isKey_v (e : KeyEvent) : bool :=
  match getCode e with KEY_v => true | _ => false end.
Definition isKey_ESCAPE (e : KeyEvent) : bool :=
  match getCode e with KEY_ESCAPE => true | _ => false end.

(** The mode the last mode key of a sequence selects, [m] when the
    sequence has none. *)
Fixpoint lastMode (events : list KeyEvent) (m : AutoFocusMethod) : AutoFocusMethod :=
  match events with
  | [] => m
  | e :: rest =>
      lastMode rest (match modeOfKey (getCode e) with Some m' => m' | None => m end)
  end.

(** The stereo camera and the camera of the orbit helper look from the
    same eye point at the same center of interest. *)
Definition camerasAgree (app : StereoscopicRenderingApp) : Prop :=
  Camera.getEyePoint (mCamera app) = mEyePoint (MayaCam.getCamera (mMayaCam app)) /\
  Camera.getCenterOfInterestPoint (mCamera app)
    = mCenterOfInterestPoint (MayaCam.getCamera (mMayaCam app)).

(** The user-interface passes of a frame, each with its viewport and the
    four numbers shown. *)
Fixpoint uiPasses (frame : list Pass) : list (Area * (R * R * R * R)) :=
  match frame with
  | [] => []
  | UIPass v f e d s :: rest => (v, (f, e, d, s)) :: uiPasses rest
  | ScenePass _ _ _ :: rest => uiPasses rest
  end.

(** ** More objects for the examples *)

(** An orbit helper that leaves its camera where it is on a press and
    moves the eye to the mouse position on a drag. *)
Definition stillDown (_ : Vec2i) (m : MayaCamUI) : MayaCamUI := m.
Definition eyeToMouse (pos : Vec2i) (_ _ _ : bool) (m : MayaCamUI) : MayaCamUI :=
  mkMayaCamUI (mInitialMousePos m)
    (mkCameraPersp (mkVec3f (IZR (px pos)) (IZR (py pos)) 0)
                   (mCenterOfInterestPoint (mCurrentCam m)) (mFov (mCurrentCam m))
                   (mAspectRatio (mCurrentCam m)) (mNearClip (mCurrentCam m))
                   (mFarClip (mCurrentCam m)))
    (mInitialCam m).

(** A short session: a drag, a resize, a switch of mode, a frame. *)
Definition session : list AppEvent :=
  [ OnMouseDown (mkMouseEvent (mkVec2i 10 10) true false false);
    OnMouseDrag (mkMouseEvent (mkVec2i 30 20) true false false);
    OnResize (mkResizeEvent 1280 720);
    OnKeyDown (mkKeyEvent KEY_2);
    OnUpdate oneSecond;
    OnDraw ].

(** A generator that always returns one half. *)
Definition halfFloat (_ : Z) (_ : nat) : R := 0.5.

(* ===================================================================== *)
(** * Properties *)
(* ===================================================================== *)

(** ** Arithmetic of the helpers *)

Lemma math_min_is_Rmin (x y : R) : math.min x y = Rmin x y.
Proof.
  unfold math.min, Rmin.
  destruct (Rlt_dec x y) as [Hlt | Hge]; destruct (Rle_dec x y) as [Hle | Hgt];
    try reflexivity; lra.
Qed.

Lemma length_sub_is_distance (p q : Vec3f) :
  Vec3.length (Vec3.sub q p) = Vec3.distance p q.
Proof.
  unfold Vec3.length, Vec3.sub, Vec3.distance, Rsqr; simpl.
  f_equal; ring.
Qed.

(** ** Key events, one at a time *)



Lemma keysDown_cons (e : KeyEvent) (events : list KeyEvent)
    (app : StereoscopicRenderingApp) :
  keysDown (e :: events) app = keysDown events (keyDown e app).
Proof. reflexivity. Qed.

(** ** The distance-based modes *)

Lemma update_focal_length_distance (lo hi k : R) (fr : FrameInput)
    (app : StereoscopicRenderingApp) :
  mFocusMethod app = SET_FOCAL_LENGTH \/ mFocusMethod app = SET_FOCUS ->
  math.min 5
    (Vec3.length (Vec3.sub (Camera.getCenterOfInterestPoint (mCamera app))
                           (Camera.getEyePoint (mCamera app))) * 0.5)
    = Rmin 5 (0.5 * Vec3.distance (Camera.getEyePoint (mCamera app))
                                  (Camera.getCenterOfInterestPoint (mCamera app))) /\
  focalLengthOf (update lo hi k fr app)
    = Rmin 5 (0.5 * Vec3.distance (Camera.getEyePoint (mCamera app))
                                  (Camera.getCenterOfInterestPoint (mCamera app))).
Proof.
  intros Hmode.
  assert (Hf : math.min 5
                 (Vec3.length (Vec3.sub (Camera.getCenterOfInterestPoint (mCamera app))
                                        (Camera.getEyePoint (mCamera app))) * 0.5)
               = Rmin 5 (0.5 * Vec3.distance (Camera.getEyePoint (mCamera app))
                              (Camera.getCenterOfInterestPoint (mCamera app)))).
  { rewrite math_min_is_Rmin, length_sub_is_distance. f_equal. ring. }
  split; [exact Hf |].
  unfold update, focalLengthOf.
  destruct Hmode as [Hm | Hm]; rewrite Hm; cbv zeta; rewrite Hf; reflexivity.
Qed.

(** C1: in the modes SET_FOCAL_LENGTH and SET_FOCUS every [update] computes
    the focal length [min(5.0, 0.5 * d)], [d] the Euclidean distance from
    the camera's eye point to its center of interest, and applies it to the
    camera: with [setFocalLength] (followed by [setEyeSeparation( 0.05 )])
    in the first mode, with [setFocus] in the second.  Nothing but the
    camera changes. *)
Theorem update_distance_focus (lo hi k : R) (fr : FrameInput)
    (app : StereoscopicRenderingApp) :
  mFocusMethod app = SET_FOCAL_LENGTH \/ mFocusMethod app = SET_FOCUS ->
  let cam := mCamera app in
  let d := Vec3.distance (Camera.getEyePoint cam) (Camera.getCenterOfInterestPoint cam) in
  let f := Rmin 5 (0.5 * d) in
  focalLengthOf (update lo hi k fr app) = f /\
  mCamera (update lo hi k fr app) =
    match mFocusMethod app with
    | SET_FOCAL_LENGTH => Camera.setEyeSeparation 0.05 (Camera.setFocalLength f cam)
    | _ => Camera.setFocus f cam
    end /\
  update lo hi k fr app = withCamera (mCamera (update lo hi k fr app)) app.
Proof.
  intros Hmode cam d f.
  destruct (update_focal_length_distance lo hi k fr app Hmode) as [Hf Hfocal].
  split; [exact Hfocal |].
  unfold update.
  destruct Hmode as [Hm | Hm]; rewrite Hm; cbv zeta; rewrite Hf;
    split; reflexivity.
Qed.

(** ** The auto-focus modes *)

Lemma autoFocus_keeps_all_but_focal_length (lo hi k : R) (fr : FrameInput)
    (af : CameraStereoAutoFocuser) (cam : CameraStereo) (useDepth : bool) :
  AutoFocuser.autoFocus lo hi k fr af cam useDepth =
  Camera.setFocalLength
    (Camera.getFocalLength (AutoFocuser.autoFocus lo hi k fr af cam useDepth)) cam.
Proof.
  unfold AutoFocuser.autoFocus.
  destruct (AutoFocuser.rawTarget hi k fr cam useDepth); cbv zeta.
  - reflexivity.
  - destruct cam; reflexivity.
Qed.

(** ** Resizing and dragging *)

(** C5: [resize] changes only the aspect ratio of the camera: the eye
    separation and the focal length, like every other field of the camera,
    are the same after the handler as before it. *)
Theorem resize_changes_aspect_ratio_only (event : ResizeEvent)
    (app : StereoscopicRenderingApp) :
  mCamera (resize event app)
    = Camera.setAspectRatio (getAspectRatio event) (mCamera app) /\
  eyeSeparationOf (resize event app) = eyeSeparationOf app /\
  focalLengthOf (resize event app) = focalLengthOf app /\
  Camera.getEyePoint (mCamera (resize event app)) = Camera.getEyePoint (mCamera app) /\
  Camera.getCenterOfInterestPoint (mCamera (resize event app))
    = Camera.getCenterOfInterestPoint (mCamera app) /\
  Camera.getFov (mCamera (resize event app)) = Camera.getFov (mCamera app) /\
  Camera.getAspectRatio (mCamera (resize event app)) = getAspectRatio event /\
  mActiveEye (mCamera (resize event app)) = mActiveEye (mCamera app) /\
  mMayaCam (resize event app)
    = MayaCam.setCurrentCam (mCamera (resize event app)) (mMayaCam app) /\
  mAF (resize event app) = mAF app /\
  mFocusMethod (resize event app) = mFocusMethod app /\
  mIsStereo (resize event app) = mIsStereo app.
Proof.
  unfold resize; cbv zeta; repeat split; reflexivity.
Qed.

(** C10: a mouse drag copies the eye point and the center of interest of
    the orbit helper's camera into the stereo camera and changes nothing
    else of it: focal length, eye separation and field of view stay. *)
Theorem mouseDrag_moves_eye_and_target_only
    (drag : Vec2i -> bool -> bool -> bool -> MayaCamUI -> MayaCamUI)
    (event : MouseEvent) (app : StereoscopicRenderingApp) :
  let app' := mouseDrag drag event app in
  let orbit := MayaCam.getCamera (mMayaCam app') in
  mMayaCam app' = drag (getPos event) (isLeftDown event) (isMiddleDown event)
                       (isRightDown event) (mMayaCam app) /\
  mCamera app' = Camera.setCenterOfInterestPoint (mCenterOfInterestPoint orbit)
                   (Camera.setEyePoint (mEyePoint orbit) (mCamera app)) /\
  Camera.getEyePoint (mCamera app') = mEyePoint orbit /\
  Camera.getCenterOfInterestPoint (mCamera app') = mCenterOfInterestPoint orbit /\
  focalLengthOf app' = focalLengthOf app /\
  eyeSeparationOf app' = eyeSeparationOf app /\
  Camera.getFov (mCamera app') = Camera.getFov (mCamera app) /\
  Camera.getAspectRatio (mCamera app') = Camera.getAspectRatio (mCamera app) /\
  mActiveEye (mCamera app') = mActiveEye (mCamera app) /\
  mAF app' = mAF app /\
  mFocusMethod app' = mFocusMethod app.
Proof.
  unfold mouseDrag; cbv zeta; repeat split; reflexivity.
Qed.

(** ** Drawing a frame *)

(** C2: with stereoscopic rendering enabled, [draw] renders the scene
    exactly twice, first with the left eye's matrices into the left half
    [[0, w/2)] of the window, then with the right eye's matrices into the
    right half [[w/2, w)]; with it disabled, exactly once with the mono
    camera's matrices, into the viewport that was current. *)
Theorem draw_scene_passes (world : World) :
  let w := mWindowWidth (host (wApp world)) in
  let h := mWindowHeight (host (wApp world)) in
  scenePasses (glFrame (wGL (execState draw world))) =
    if mIsStereo (wApp world)
    then [ (mkArea 0 0 (Z.quot w 2) h, Some EyeLeft);
           (mkArea (Z.quot w 2) 0 w h, Some EyeRight) ]
    else [ (glViewport (wGL world), Some EyeMono) ].
Proof.
  destruct world as [app g]; simpl.
  unfold draw, execState; simpl.
  destruct (mIsStereo app) eqn:Hstereo; simpl; rewrite ?Hstereo; reflexivity.
Qed.

(** The pixels of the two halves: column [x] lies in the left viewport
    when [0 <= x < w/2] and in the right one when [w/2 <= x < w]. *)
Lemma half_viewports_columns (w h x : Z) :
  (Area_containsX (mkArea 0 0 (Z.quot w 2) h) x <-> (0 <= x < Z.quot w 2)%Z) /\
  (Area_containsX (mkArea (Z.quot w 2) 0 w h) x <-> (Z.quot w 2 <= x < w)%Z).
Proof. unfold Area_containsX; simpl; split; reflexivity. Qed.

(** ** Selecting the mode *)

(** C6: the keys 1 to 4 select the auto-focus mode and change nothing
    else: the camera (focal length, eye separation) and the helper (depth
    fraction, speed) are untouched, and the next [update] already runs in
    the new mode.  No other key changes the mode. *)
Theorem mode_keys_select_mode_only (k : KeyCode) (app : StereoscopicRenderingApp) :
  match modeOfKey k with
  | Some m =>
      keyDown (mkKeyEvent k) app = withFocusMethod m app /\
      mFocusMethod (keyDown (mkKeyEvent k) app) = m /\
      mCamera (keyDown (mkKeyEvent k) app) = mCamera app /\
      mAF (keyDown (mkKeyEvent k) app) = mAF app /\
      (forall lo hi c fr,
         update lo hi c fr (keyDown (mkKeyEvent k) app)
           = update lo hi c fr (withFocusMethod m app))
  | None => mFocusMethod (keyDown (mkKeyEvent k) app) = mFocusMethod app
  end.
Proof.
  destruct k; unfold keyDown; simpl; try (repeat split; reflexivity);
    destruct (geAutoFocusSimple (mFocusMethod app)); reflexivity.
Qed.

(** ** The depth fraction *)




(** ** Which keys reach which option *)


(* ===================================================================== *)
(** * The handlers at work *)
(* ===================================================================== *)

(** After [setup] the eye is more than 10 away from the center of
    interest, so SET_FOCUS settles on the cap of 5 and an eye separation
    of 5/30. *)
Example update_focusApp :
  focalLengthOf (update 1 5 0.5 oneSecond focusApp) = 5 /\
  eyeSeparationOf (update 1 5 0.5 oneSecond focusApp) = 5 * (1 / 30).
Proof.
  assert (Hf : focalLengthOf (update 1 5 0.5 oneSecond focusApp) = 5).
  { destruct (update_focal_length_distance 1 5 0.5 oneSecond focusApp) as [_ ->];
      [right; reflexivity |].
    apply Rmin_left.
    change (Camera.getEyePoint (mCamera focusApp)) with (mkVec3f 0.2 1.3 (-11.5)).
    change (Camera.getCenterOfInterestPoint (mCamera focusApp))
      with (mkVec3f 0.5 1.5 (-0.1)).
    unfold Vec3.distance; simpl.
    assert (H10 : 10 <= sqrt (Rsqr (0.2 - 0.5) + Rsqr (1.3 - 1.5) + Rsqr (-11.5 - -0.1))).
    { rewrite <- (sqrt_Rsqr 10) at 1 by lra.
      apply sqrt_le_1_alt. unfold Rsqr. lra. }
    lra. }
  split; [exact Hf |].
  change (eyeSeparationOf (update 1 5 0.5 oneSecond focusApp))
    with (focalLengthOf (update 1 5 0.5 oneSecond focusApp) * Camera.focusRatio).
  rewrite Hf. reflexivity.
Qed.

(** A frame of the 960 x 540 window, stereo on: the scene twice, then the
    user interface twice, each into its half. *)
Example draw_readyApp :
  glFrame (wGL (execState draw (mkWorld readyApp freshGL))) =
  [ ScenePass (mkArea 0 0 480 540)
              (Some (Camera.enableStereoLeft (mCamera readyApp))) true;
    ScenePass (mkArea 480 0 960 540)
              (Some (Camera.enableStereoRight (mCamera readyApp))) true;
    UIPass (mkArea 0 0 480 540) 1 0.05 1 0.05;
    UIPass (mkArea 480 0 960 540) 1 0.05 1 0.05 ].
Proof. reflexivity. Qed.

(** ** Witnesses *)

Lemma update_distance_focus_witness :
  (mFocusMethod focusApp = SET_FOCAL_LENGTH \/ mFocusMethod focusApp = SET_FOCUS) /\
  focalLengthOf (update 1 5 0.5 oneSecond focusApp)
    = Rmin 5 (0.5 * Vec3.distance (mkVec3f 0.2 1.3 (-11.5)) (mkVec3f 0.5 1.5 (-0.1))).
Proof.
  split.
  - right; reflexivity.
  - exact (proj1 (update_distance_focus 1 5 0.5 oneSecond focusApp
                    (or_intror eq_refl))).
Defined.


(** ** Where the stated bounds fail *)



(* ===================================================================== *)
(** * More properties of the handlers *)
(* ===================================================================== *)

(** ** [update] in the distance-based modes *)

Lemma distance_nonneg (p q : Vec3f) : 0 <= Vec3.distance p q.
Proof. unfold Vec3.distance; apply sqrt_pos. Qed.

Lemma distance_zero_iff (p q : Vec3f) : Vec3.distance p q = 0 <-> p = q.
Proof.
  unfold Vec3.distance; split.
  - intros H0.
    assert (Hsum : Rsqr (vx p - vx q) + Rsqr (vy p - vy q) + Rsqr (vz p - vz q) = 0).
    { apply sqrt_eq_0; [| exact H0].
      pose proof (Rle_0_sqr (vx p - vx q)); pose proof (Rle_0_sqr (vy p - vy q));
        pose proof (Rle_0_sqr (vz p - vz q)); lra. }
    pose proof (Rle_0_sqr (vx p - vx q)) as Hx.
    pose proof (Rle_0_sqr (vy p - vy q)) as Hy.
    pose proof (Rle_0_sqr (vz p - vz q)) as Hz.
    assert (Hx0 : Rsqr (vx p - vx q) = 0) by lra.
    assert (Hy0 : Rsqr (vy p - vy q) = 0) by lra.
    assert (Hz0 : Rsqr (vz p - vz q) = 0) by lra.
    apply Rsqr_0_uniq in Hx0, Hy0, Hz0.
    destruct p as [a b c], q as [a' b' c']; simpl in *.
    f_equal; lra.
  - intros ->.
    replace (Rsqr (vx q - vx q) + Rsqr (vy q - vy q) + Rsqr (vz q - vz q)) with 0
      by (unfold Rsqr; ring).
    apply sqrt_0.
Qed.

(** X1: in the modes SET_FOCAL_LENGTH and SET_FOCUS the focal length
    [update] leaves in the camera lies in [0, 5]: it is half the distance
    from the eye point to the center of interest while that distance is at
    most 10, and 5 from there on. *)
Theorem update_focal_length_halves_or_caps (lo hi k : R) (fr : FrameInput)
    (app : StereoscopicRenderingApp) :
  mFocusMethod app = SET_FOCAL_LENGTH \/ mFocusMethod app = SET_FOCUS ->
  let d := Vec3.distance (Camera.getEyePoint (mCamera app))
                         (Camera.getCenterOfInterestPoint (mCamera app)) in
  0 <= focalLengthOf (update lo hi k fr app) <= 5 /\
  (d <= 10 -> focalLengthOf (update lo hi k fr app) = d / 2) /\
  (10 <= d -> focalLengthOf (update lo hi k fr app) = 5).
Proof.
  intros Hmode d.
  destruct (update_focal_length_distance lo hi k fr app Hmode) as [_ Hf].
  fold d in Hf. rewrite Hf.
  pose proof (distance_nonneg (Camera.getEyePoint (mCamera app))
                (Camera.getCenterOfInterestPoint (mCamera app))) as Hd.
  fold d in Hd.
  unfold Rmin; destruct (Rle_dec 5 (0.5 * d)); repeat split; intros; lra.
Qed.

(** X2: in those two modes nothing guards the degenerate camera: when the
    eye point and the center of interest coincide, [update] hands the
    focal length 0 to the camera, to [setFocalLength] in the first mode
    and to [setFocus] in the second. *)
Theorem update_degenerate_camera (lo hi k : R) (fr : FrameInput)
    (app : StereoscopicRenderingApp) :
  mFocusMethod app = SET_FOCAL_LENGTH \/ mFocusMethod app = SET_FOCUS ->
  Camera.getEyePoint (mCamera app) = Camera.getCenterOfInterestPoint (mCamera app) ->
  mCamera (update lo hi k fr app) =
    match mFocusMethod app with
    | SET_FOCAL_LENGTH =>
        Camera.setEyeSeparation 0.05 (Camera.setFocalLength 0 (mCamera app))
    | _ => Camera.setFocus 0 (mCamera app)
    end.
Proof.
  intros Hmode Heq.
  destruct (update_focal_length_distance lo hi k fr app Hmode) as [Hmin _].
  destruct (distance_zero_iff (Camera.getEyePoint (mCamera app))
              (Camera.getCenterOfInterestPoint (mCamera app))) as [_ Hzero].
  rewrite (Hzero Heq) in Hmin.
  assert (H0 : Rmin 5 (0.5 * 0) = 0)
    by (unfold Rmin; destruct (Rle_dec 5 (0.5 * 0)); lra).
  rewrite H0 in Hmin.
  unfold update.
  destruct Hmode as [Hm | Hm]; rewrite Hm; cbv zeta; rewrite Hmin; reflexivity.
Qed.

(** X3: in those two modes [update] is idempotent: while the camera is not
    moved, a second [update] leaves the application exactly as the first
    one did, whatever the frame supplies. *)
Theorem update_twice_is_update_once (lo hi k : R) (fr1 fr2 : FrameInput)
    (app : StereoscopicRenderingApp) :
  mFocusMethod app = SET_FOCAL_LENGTH \/ mFocusMethod app = SET_FOCUS ->
  update lo hi k fr2 (update lo hi k fr1 app) = update lo hi k fr1 app.
Proof.
  intros Hmode.
  destruct app as [h st m mc [b f s eye] af assets]; simpl in Hmode.
  destruct Hmode as [-> | ->]; reflexivity.
Qed.

(** ** [keyDown] over key sequences *)

Lemma keyDown_frame (e : KeyEvent) (app : StereoscopicRenderingApp) :
  mCamera (keyDown e app) = mCamera app /\
  mMayaCam (keyDown e app) = mMayaCam app /\
  mAssets (keyDown e app) = mAssets app.
Proof.
  destruct e as [c]; unfold keyDown; simpl.
  destruct c; try destruct (geAutoFocusSimple (mFocusMethod app));
    repeat split; reflexivity.
Qed.


Lemma keyDown_quit (e : KeyEvent) (app : StereoscopicRenderingApp) :
  mQuit (host (keyDown e app)) = mQuit (host app) || isKey_ESCAPE e.
Proof.
  destruct e as [c]; unfold keyDown, isKey_ESCAPE; simpl.
  destruct c; try destruct (geAutoFocusSimple (mFocusMethod app)); simpl;
    rewrite ?orb_false_r, ?orb_true_r; reflexivity.
Qed.

(** X5: a request to quit is never taken back: after a sequence of key
    events the application is asked to quit exactly when it was before or
    ESCAPE is among the keys. *)
Theorem quit_is_sticky (events : list KeyEvent) (app : StereoscopicRenderingApp) :
  mQuit (host (keysDown events app))
    = mQuit (host app) || existsb isKey_ESCAPE events.
Proof.
  revert app; induction events as [| e events IH]; intros app.
  - simpl. rewrite orb_false_r. reflexivity.
  - rewrite keysDown_cons, IH, keyDown_quit. simpl.
    rewrite orb_assoc. reflexivity.
Qed.

Lemma keyDown_mode (e : KeyEvent) (app : StereoscopicRenderingApp) :
  mFocusMethod (keyDown e app)
    = match modeOfKey (getCode e) with
      | Some m => m
      | None => mFocusMethod app
      end.
Proof.
  destruct e as [c]; unfold keyDown; simpl.
  destruct c; try destruct (geAutoFocusSimple (mFocusMethod app)); reflexivity.
Qed.

(** X6: the last mode key wins: after a sequence of key events the
    auto-focus mode is the one selected by the last of the keys 1 to 4 in
    the sequence, and the mode before when there is none. *)
Theorem mode_is_last_mode_key (events : list KeyEvent)
    (app : StereoscopicRenderingApp) :
  mFocusMethod (keysDown events app) = lastMode events (mFocusMethod app).
Proof.
  revert app; induction events as [| e events IH]; intros app.
  - reflexivity.
  - rewrite keysDown_cons, IH, keyDown_mode. reflexivity.
Qed.

Lemma keyDown_switches (e : KeyEvent) (app : StereoscopicRenderingApp) :
  mIsStereo (keyDown e app) = xorb (mIsStereo app) (isKey_s e) /\
  mFullScreen (host (keyDown e app)) = xorb (mFullScreen (host app)) (isKey_f e) /\
  mVerticalSync (host (keyDown e app)) = xorb (mVerticalSync (host app)) (isKey_v e).
Proof.
  destruct e as [c]; unfold keyDown, isKey_s, isKey_f, isKey_v; simpl.
  destruct c; try destruct (geAutoFocusSimple (mFocusMethod app)); simpl;
    rewrite ?xorb_false_r, ?xorb_true_r; repeat split; reflexivity.
Qed.

Lemma odd_count_cons (p : KeyEvent -> bool) (e : KeyEvent) (events : list KeyEvent) :
  Nat.odd (countKeys p (e :: events)) = xorb (p e) (Nat.odd (countKeys p events)).
Proof.
  unfold countKeys; simpl. destruct (p e); simpl List.length.
  - rewrite Nat.odd_succ, <- Nat.negb_odd. reflexivity.
  - reflexivity.
Qed.

(** X7: the three switches toggle: after a sequence of key events stereo
    rendering, full screen and vertical sync are each as before when their
    key (s, f, v) was pressed an even number of times, and flipped when it
    was pressed an odd number of times. *)
Theorem switches_follow_parity (events : list KeyEvent)
    (app : StereoscopicRenderingApp) :
  mIsStereo (keysDown events app)
    = xorb (mIsStereo app) (Nat.odd (countKeys isKey_s events)) /\
  mFullScreen (host (keysDown events app))
    = xorb (mFullScreen (host app)) (Nat.odd (countKeys isKey_f events)) /\
  mVerticalSync (host (keysDown events app))
    = xorb (mVerticalSync (host app)) (Nat.odd (countKeys isKey_v events)).
Proof.
  revert app; induction events as [| e events IH]; intros app.
  - unfold countKeys; simpl. rewrite !xorb_false_r. repeat split; reflexivity.
  - rewrite keysDown_cons.
    destruct (IH (keyDown e app)) as (Hs & Hf & Hv).
    destruct (keyDown_switches e app) as (Hs' & Hf' & Hv').
    rewrite Hs, Hf, Hv, Hs', Hf', Hv', !odd_count_cons, !xorb_assoc.
    repeat split; reflexivity.
Qed.

(** ** [draw]: what a frame leaves behind *)

(** X8: [draw] hands the context back as it found it: the viewport (halved
    twice on the way in stereo), its attribute stack, the matrices and the
    matrix stack are after the frame what they were before it, and depth
    reading and writing are off. *)
Theorem draw_restores_context (world : World) :
  let g := wGL world in
  let g' := wGL (execState draw world) in
  glViewport g' = glViewport g /\
  glAttribStack g' = glAttribStack g /\
  glMatrices g' = glMatrices g /\
  glMatrixStack g' = glMatrixStack g /\
  glDepthRead g' = false /\
  glDepthWrite g' = false.
Proof.
  destruct world as [app g]; unfold draw, execState; simpl.
  destruct (mIsStereo app) eqn:Hstereo; simpl; rewrite ?Hstereo; simpl;
    repeat split; reflexivity.
Qed.

(** X9: of the application, [draw] changes the camera's active eye and
    nothing else: the right eye stays active after a stereo frame, the
    mono camera after a mono frame; position, focal length and eye
    separation of the camera are untouched. *)
Theorem draw_changes_active_eye_only (world : World) :
  let app := wApp world in
  let app' := wApp (execState draw world) in
  app' = withCamera (if mIsStereo app
                     then Camera.enableStereoRight (mCamera app)
                     else Camera.disableStereo (mCamera app)) app /\
  mActiveEye (mCamera app') = (if mIsStereo app then EyeRight else EyeMono) /\
  base (mCamera app') = base (mCamera app) /\
  focalLengthOf app' = focalLengthOf app /\
  eyeSeparationOf app' = eyeSeparationOf app.
Proof.
  destruct world as [app g]; unfold draw, execState; simpl.
  destruct (mIsStereo app) eqn:Hstereo; simpl; rewrite ?Hstereo; simpl;
    repeat split; reflexivity.
Qed.

(** X10: the user interface is drawn after the scene and into the same
    viewports: in stereo the frame is the left scene, the right scene, the
    left interface, the right interface; in mono the scene, then the
    interface.  Every interface pass shows the camera's focal length and
    eye separation and the helper's depth and speed as they are in the
    application. *)
Theorem draw_frame_layout (world : World) :
  let app := wApp world in
  let w := mWindowWidth (host app) in
  let h := mWindowHeight (host app) in
  let left := mkArea 0 0 (Z.quot w 2) h in
  let right := mkArea (Z.quot w 2) 0 w h in
  glFrame (wGL (execState draw world)) =
    if mIsStereo app
    then [ ScenePass left (Some (Camera.enableStereoLeft (mCamera app))) (mAssets app);
           ScenePass right (Some (Camera.enableStereoRight (mCamera app))) (mAssets app);
           UIPass left (focalLengthOf app) (eyeSeparationOf app)
                  (depthOf app) (speedOf app);
           UIPass right (focalLengthOf app) (eyeSeparationOf app)
                  (depthOf app) (speedOf app) ]
    else [ ScenePass (glViewport (wGL world))
                     (Some (Camera.disableStereo (mCamera app))) (mAssets app);
           UIPass (glViewport (wGL world)) (focalLengthOf app) (eyeSeparationOf app)
                  (depthOf app) (speedOf app) ].
Proof.
  destruct world as [app g]; unfold draw, execState; simpl.
  destruct (mIsStereo app) eqn:Hstereo; simpl; rewrite ?Hstereo; simpl;
    reflexivity.
Qed.

(** ** The handlers in sequence *)

Lemma update_keeps_base (lo hi k : R) (fr : FrameInput)
    (app : StereoscopicRenderingApp) :
  base (mCamera (update lo hi k fr app)) = base (mCamera app) /\
  mMayaCam (update lo hi k fr app) = mMayaCam app.
Proof.
  unfold update.
  destruct (mFocusMethod app); cbv zeta;
    change (mCamera (withCamera ?c _)) with c;
    change (mMayaCam (withCamera _ ?a)) with (mMayaCam a);
    try (split; reflexivity);
    rewrite autoFocus_keeps_all_but_focal_length; split; reflexivity.
Qed.

Lemma draw_keeps_base (w : World) :
  base (mCamera (wApp (execState draw w))) = base (mCamera (wApp w)) /\
  mMayaCam (wApp (execState draw w)) = mMayaCam (wApp w).
Proof.
  destruct w as [app g]; unfold draw, execState; simpl.
  destruct (mIsStereo app) eqn:Hstereo; simpl; rewrite ?Hstereo; simpl;
    split; reflexivity.
Qed.

Section Loop.

Variable down : Vec2i -> MayaCamUI -> MayaCamUI.
Variable drag : Vec2i -> bool -> bool -> bool -> MayaCamUI -> MayaCamUI.
Variables lo hi k : R.

Lemma run_cons (ev : AppEvent) (events : list AppEvent) (w : World) :
  run down drag lo hi k (ev :: events) w
    = run down drag lo hi k events (dispatch down drag lo hi k ev w).
Proof. reflexivity. Qed.

Lemma dispatch_keeps_lens (ev : AppEvent) (w : World) :
  mFov (base (mCamera (wApp (dispatch down drag lo hi k ev w))))
    = mFov (base (mCamera (wApp w))) /\
  mNearClip (base (mCamera (wApp (dispatch down drag lo hi k ev w))))
    = mNearClip (base (mCamera (wApp w))) /\
  mFarClip (base (mCamera (wApp (dispatch down drag lo hi k ev w))))
    = mFarClip (base (mCamera (wApp w))).
Proof.
  destruct ev as [e | e | e | e | fr |]; simpl.
  - destruct (keyDown_frame e (wApp w)) as [-> _]. repeat split; reflexivity.
  - repeat split; reflexivity.
  - repeat split; reflexivity.
  - repeat split; reflexivity.
  - destruct (update_keeps_base lo hi k fr (wApp w)) as [-> _].
    repeat split; reflexivity.
  - destruct (draw_keeps_base w) as [-> _]. repeat split; reflexivity.
Qed.

Lemma run_keeps_lens (events : list AppEvent) :
  forall w : World,
    mFov (base (mCamera (wApp (run down drag lo hi k events w))))
      = mFov (base (mCamera (wApp w))) /\
    mNearClip (base (mCamera (wApp (run down drag lo hi k events w))))
      = mNearClip (base (mCamera (wApp w))) /\
    mFarClip (base (mCamera (wApp (run down drag lo hi k events w))))
      = mFarClip (base (mCamera (wApp w))).
Proof.
  induction events as [| ev events IH]; intros w.
  - repeat split; reflexivity.
  - rewrite run_cons.
    destruct (IH (dispatch down drag lo hi k ev w)) as (Hf & Hn & Hc).
    destruct (dispatch_keeps_lens ev w) as (Hf' & Hn' & Hc').
    repeat split; congruence.
Qed.

Lemma dispatch_keeps_agreement (ev : AppEvent) (w : World) :
  (forall pos m, MayaCam.getCamera (down pos m) = MayaCam.getCamera m) ->
  camerasAgree (wApp w) ->
  camerasAgree (wApp (dispatch down drag lo hi k ev w)).
Proof.
  intros Hdown [Heye Hcoi]; unfold camerasAgree, Camera.getEyePoint,
    Camera.getCenterOfInterestPoint in *.
  destruct ev as [e | e | e | e | fr |]; simpl.
  - destruct (keyDown_frame e (wApp w)) as (-> & -> & _). split; assumption.
  - rewrite Hdown. split; assumption.
  - split; reflexivity.
  - split; reflexivity.
  - destruct (update_keeps_base lo hi k fr (wApp w)) as [-> ->]. split; assumption.
  - destruct (draw_keeps_base w) as [-> ->]. split; assumption.
Qed.

End Loop.

(** X11: no handler touches the lens: in every state the application
    reaches after [setup], by whatever sequence of key, mouse, resize,
    update and draw calls, the camera's field of view is the 60 degrees
    [setup] gave it, and its clipping planes are those it was constructed
    with. *)
Theorem field_of_view_stays_60
    (down : Vec2i -> MayaCamUI -> MayaCamUI)
    (drag : Vec2i -> bool -> bool -> bool -> MayaCamUI -> MayaCamUI)
    (lo hi k : R) (events : list AppEvent) (loaded : bool)
    (app : StereoscopicRenderingApp) (g : GLContext) :
  let w := run down drag lo hi k events (mkWorld (setup loaded app) g) in
  Camera.getFov (mCamera (wApp w)) = 60 /\
  mNearClip (base (mCamera (wApp w))) = mNearClip (base (mCamera app)) /\
  mFarClip (base (mCamera (wApp w))) = mFarClip (base (mCamera app)).
Proof.
  intros w; unfold w, Camera.getFov.
  destruct (run_keeps_lens down drag lo hi k events (mkWorld (setup loaded app) g))
    as (-> & -> & ->).
  unfold setup; destruct loaded; repeat split; reflexivity.
Qed.

(** X12: the two cameras stay together: provided a mouse press does not by
    itself move the orbit helper's camera, in every state the application
    reaches after [setup] the stereo camera looks from the eye point and
    at the center of interest of the orbit helper's camera. *)
Theorem cameras_stay_together
    (down : Vec2i -> MayaCamUI -> MayaCamUI)
    (drag : Vec2i -> bool -> bool -> bool -> MayaCamUI -> MayaCamUI)
    (lo hi k : R) (events : list AppEvent) (loaded : bool)
    (app : StereoscopicRenderingApp) (g : GLContext) :
  (forall pos m, MayaCam.getCamera (down pos m) = MayaCam.getCamera m) ->
  camerasAgree (wApp (run down drag lo hi k events (mkWorld (setup loaded app) g))).
Proof.
  intros Hdown.
  assert (Hstart : camerasAgree (wApp (mkWorld (setup loaded app) g))).
  { unfold setup; destruct loaded; split; reflexivity. }
  revert Hstart. generalize (mkWorld (setup loaded app) g) as w.
  induction events as [| ev events IH]; intros w Hw; [exact Hw |].
  rewrite run_cons. apply IH.
  apply dispatch_keeps_agreement; assumption.
Qed.

Lemma cameras_stay_together_witness :
  (forall pos m, MayaCam.getCamera (stillDown pos m) = MayaCam.getCamera m) /\
  camerasAgree
    (wApp (run stillDown eyeToMouse 1 5 0.5 session (mkWorld readyApp freshGL))) /\
  Camera.getEyePoint
    (mCamera (wApp (run stillDown eyeToMouse 1 5 0.5 session (mkWorld readyApp freshGL))))
    = mkVec3f 30 20 0.
Proof.
  split; [intros pos m; reflexivity |].
  split.
  - exact (cameras_stay_together stillDown eyeToMouse 1 5 0.5 session true freshApp
             freshGL (fun pos m => eq_refl)).
  - reflexivity.
Defined.

(** ** [render]: the scene *)

Lemma execState_bind {S A B : Type} (c : state S A) (f : A -> state S B) (s : S) :
  execState (bind c f) s = execState (f (evalState c s)) (execState c s).
Proof.
  unfold execState, evalState; simpl.
  destruct (runState c s) as [v s']; reflexivity.
Qed.

Lemma execState_ret {S A : Type} (v : A) (s : S) : execState (ret v) s = s.
Proof. reflexivity. Qed.

Lemma exec_onPipeline (f : Pipeline -> Pipeline) (p : Pipeline) :
  execState (pipeline.onPipeline f) p = f p.
Proof. reflexivity. Qed.

Lemma intRange_In (first : Z) (count : nat) (i : Z) :
  In i (intRange first count) <-> (first <= i < first + Z.of_nat count)%Z.
Proof.
  revert first; induction count as [| n IH]; intros first; simpl.
  - split; [contradiction | lia].
  - rewrite IH. split.
    + intros [-> | H]; lia.
    + intros H. destruct (Z.eq_dec first i); [left; assumption | right; lia].
Qed.

Lemma intRange_length (first : Z) (count : nat) :
  List.length (intRange first count) = count.
Proof.
  revert first; induction count as [| n IH]; intros first; simpl;
    [reflexivity | f_equal; apply IH].
Qed.

Lemma forCount_S (n : nat) (i : Z) (body : Z -> state Pipeline unit) :
  pipeline.forCount (S n) i body
    = bind (body i) (fun _ => pipeline.forCount n (i + 1)%Z body).
Proof. reflexivity. Qed.

Section SceneProofs.

Variable nextFloat : Z -> nat -> R.

(** The two loops of [render], round by round. *)
Lemma notes_loop (seconds : R) (count : nat) :
  forall (i : Z) (p : Pipeline),
    plShaderBound p = true ->
    exists paint,
      execState
        (pipeline.forCount count i (fun i =>
           let t := noteT nextFloat seconds i in
           let r := noteR nextFloat seconds i in
           let z := noteZ nextFloat seconds i in
           bind pipeline.pushModelView (fun _ =>
           bind (pipeline.color (PaintHSV (nextFloat i 2) 1 1)) (fun _ =>
           bind pipeline.pushModelView (fun _ =>
           bind (pipeline.translate
                   (mkVec3f (IZR i * 0.5) (0.15 + 1 * Rabs (sin (3 * t))) (- z))) (fun _ =>
           bind (pipeline.rotate (Vec3more.mul Vec3more.yAxis r)) (fun _ =>
           bind (pipeline.draw Note) (fun _ =>
           bind pipeline.popModelView (fun _ =>
           bind pipeline.pushModelView (fun _ =>
           bind (pipeline.scale (mkVec3f 1 (-1) 1)) (fun _ =>
           bind (pipeline.translate
                   (mkVec3f (IZR i * 0.5) (0.15 + 1 * Rabs (sin (3 * t))) (- z))) (fun _ =>
           bind (pipeline.rotate (Vec3more.mul Vec3more.yAxis r)) (fun _ =>
           bind (pipeline.draw Note) (fun _ =>
           bind pipeline.popModelView (fun _ =>
           pipeline.popModelView))))))))))))))) p
      = mkPipeline (plModelView p) (plModelViewStack p) paint true
                   (plAlphaBlending p)
                   (plCalls p ++ flat_map (noteCalls nextFloat seconds (plModelView p))
                                          (intRange i count)).
Proof.
  induction count as [| n IH]; intros i p Hsh.
  - exists (plPaint p). destruct p as [mv st pa sh bl calls]; simpl in *.
    subst sh. rewrite app_nil_r. reflexivity.
  - rewrite forCount_S, execState_bind. cbv beta.
    destruct p as [mv st pa sh bl calls]; simpl in Hsh; subst sh.
    match goal with
    | |- context [execState (pipeline.forCount n (i + 1)%Z ?body) ?q] =>
        set (q0 := q);
        assert (Hq : plShaderBound q0 = true /\ plModelView q0 = mv
                     /\ plModelViewStack q0 = st /\ plAlphaBlending q0 = bl
                     /\ plCalls q0 = calls ++ noteCalls nextFloat seconds mv i)
          by (repeat split; try reflexivity;
              unfold q0, noteCalls, notePlace, noteTurn, mirror; simpl;
              rewrite <- app_assoc; reflexivity);
        clearbody q0
    end.
    destruct Hq as (Hs & Hmv & Hst & Hbl & Hcalls).
    destruct (IH (i + 1)%Z q0 Hs) as [paint Hrun].
    exists paint. rewrite Hrun, Hmv, Hst, Hbl, Hcalls.
    simpl. rewrite <- app_assoc. reflexivity.
Qed.

Lemma grid_loop (count : nat) :
  forall (i : Z) (p : Pipeline),
    execState
      (pipeline.forCount count i (fun i =>
         bind (pipeline.drawLine (mkVec3f (IZR i) 0 (-100)) (mkVec3f (IZR i) 0 100))
              (fun _ =>
         pipeline.drawLine (mkVec3f (-100) 0 (IZR i)) (mkVec3f 100 0 (IZR i))))) p
    = mkPipeline (plModelView p) (plModelViewStack p) (plPaint p) (plShaderBound p)
                 (plAlphaBlending p)
                 (plCalls p ++ flat_map (fun i =>
                    [ DrawLine (mkVec3f (IZR i) 0 (-100)) (mkVec3f (IZR i) 0 100)
                               (plModelView p) (plPaint p);
                      DrawLine (mkVec3f (-100) 0 (IZR i)) (mkVec3f 100 0 (IZR i))
                               (plModelView p) (plPaint p) ])
                    (intRange i count)).
Proof.
  induction count as [| n IH]; intros i p.
  - destruct p; simpl. rewrite app_nil_r. reflexivity.
  - rewrite forCount_S, execState_bind. cbv beta.
    rewrite IH. destruct p as [mv st pa sh bl calls]; simpl.
    rewrite <- !app_assoc. reflexivity.
Qed.

(** [render] issues exactly the calls of [sceneCalls], in that order, and
    leaves of the pipeline only the colour, the shader and the blending
    switch changed. *)
Lemma renderScene_run (seconds : R) (assets : bool) (p : Pipeline) :
  execState (renderScene nextFloat seconds assets) p
  = mkPipeline (plModelView p) (plModelViewStack p) (PaintRGBA 1 1 1 0.75)
               (if assets then false else plShaderBound p) false
               (plCalls p ++ sceneCalls nextFloat seconds assets (plModelView p)).
Proof.
  unfold renderScene, pipeline.forRange.
  change (Z.to_nat (100 - -100 + 1)) with 201%nat.
  destruct p as [mv st pa sh bl calls].
  destruct assets.
  - repeat (rewrite execState_bind; cbv beta).
    match goal with
    | |- context [execState (pipeline.forCount 201 (-100) ?body)
                            (execState pipeline.popModelView ?q)] =>
        destruct (notes_loop seconds 201 (-100)%Z (execState pipeline.popModelView q))
          as [paint Hnotes]; [reflexivity |]
    end.
    cbv zeta in Hnotes. rewrite Hnotes. clear Hnotes.
    rewrite grid_loop.
    unfold sceneCalls, tromboneCalls, gridCalls, floorCall, mirror.
    cbn -[intRange flat_map Rmult Rplus IZR].
    rewrite <- !app_assoc. reflexivity.
  - repeat (rewrite execState_bind; cbv beta).
    rewrite execState_ret, grid_loop.
    unfold sceneCalls, gridCalls, floorCall.
    cbn -[intRange flat_map Rmult Rplus IZR].
    rewrite <- !app_assoc. reflexivity.
Qed.

End SceneProofs.

Lemma fmodf_range (x y : R) : 0 <= x -> 0 < y -> 0 <= fmodf x y < y.
Proof.
  intros Hx Hy; unfold fmodf, truncate.
  assert (Hq : 0 <= x / y) by (apply Rmult_le_pos; [lra | left; apply Rinv_0_lt_compat; lra]).
  destruct (Rle_dec 0 (x / y)) as [_ | Hn]; [| contradiction].
  destruct (base_Int_part (x / y)) as [Hlow Hup].
  assert (Hxy : x = x / y * y) by (field; lra).
  set (r := x / y) in *. set (q := IZR (Int_part r)) in *.
  clearbody r q. split; nra.
Qed.

Lemma filter_flat_map_length {A B : Type} (f : B -> bool) (g : A -> list B)
    (n : nat) (l : list A) :
  (forall a, List.length (filter f (g a)) = n) ->
  List.length (filter f (flat_map g l)) = (n * List.length l)%nat.
Proof.
  intros Hg; induction l as [| a l IH]; simpl; [lia |].
  rewrite filter_app, length_app, Hg, IH. lia.
Qed.

(** X13: [render] draws the scene in a fixed order: when the shader and
    the meshes are loaded, the trombone and its mirror image, then for
    every [i] from -100 to 100 note [i] followed at once by its mirror
    image, placed and turned alike and in the same colour, all with the
    shader bound; then, loaded or not, the 201 pairs of grid lines and
    last the floor, alpha-blended. *)
Theorem render_draws_in_order (nextFloat : Z -> nat -> R) (seconds : R)
    (assets : bool) (p : Pipeline) :
  plCalls (execState (renderScene nextFloat seconds assets) p)
    = plCalls p
      ++ (if assets
          then tromboneCalls seconds (plModelView p)
                 ++ flat_map (noteCalls nextFloat seconds (plModelView p))
                             (intRange (-100) 201)
          else [])
      ++ flat_map (gridCalls (plModelView p)) (intRange (-100) 201)
      ++ [floorCall (plModelView p)].
Proof. rewrite renderScene_run. reflexivity. Qed.

(** X14: [render] balances what it pushes: the model-view matrix and its
    stack are after the call what they were before it, alpha blending is
    off, and the shader, when it was bound for the meshes, is unbound
    again; only the current colour, the floor's, is left changed. *)
Theorem render_restores_pipeline (nextFloat : Z -> nat -> R) (seconds : R)
    (assets : bool) (p : Pipeline) :
  let p' := execState (renderScene nextFloat seconds assets) p in
  plModelView p' = plModelView p /\
  plModelViewStack p' = plModelViewStack p /\
  plAlphaBlending p' = false /\
  plShaderBound p' = (if assets then false else plShaderBound p) /\
  plPaint p' = PaintRGBA 1 1 1 0.75.
Proof. intros p'; unfold p'; rewrite renderScene_run. repeat split; reflexivity. Qed.

Lemma sceneCalls_counts (nextFloat : Z -> nat -> R) (seconds : R)
    (assets : bool) (mv : list Transform) :
  List.length (filter isLineCall (sceneCalls nextFloat seconds assets mv)) = 402%nat /\
  List.length (filter isCubeCall (sceneCalls nextFloat seconds assets mv)) = 1%nat /\
  List.length (filter isMeshCall (sceneCalls nextFloat seconds assets mv))
    = (if assets then 404 else 0)%nat.
Proof.
  assert (Hgrid : forall f n, (forall i, List.length (filter f (gridCalls mv i)) = n) ->
            List.length (filter f (flat_map (gridCalls mv) (intRange (-100) 201)))
              = (n * 201)%nat).
  { intros f n Hf. rewrite (filter_flat_map_length f _ n) by exact Hf.
    rewrite intRange_length. reflexivity. }
  assert (Hnotes : forall f n,
            (forall i, List.length (filter f (noteCalls nextFloat seconds mv i)) = n) ->
            List.length (filter f (flat_map (noteCalls nextFloat seconds mv)
                                            (intRange (-100) 201)))
              = (n * 201)%nat).
  { intros f n Hf. rewrite (filter_flat_map_length f _ n) by exact Hf.
    rewrite intRange_length. reflexivity. }
  unfold sceneCalls; destruct assets;
    rewrite !filter_app, !length_app;
    rewrite (Hgrid isLineCall 2%nat), (Hgrid isCubeCall 0%nat),
            (Hgrid isMeshCall 0%nat) by (intros; reflexivity);
    rewrite ?(Hnotes isLineCall 0%nat), ?(Hnotes isCubeCall 0%nat),
            ?(Hnotes isMeshCall 2%nat) by (intros; reflexivity);
    repeat split; reflexivity.
Qed.

(** X15: how much [render] draws: 402 lines and one cube in every call,
    and 404 meshes (the trombone and 201 notes, each with its reflection)
    when the assets are loaded, none when they are not. *)
Theorem render_call_counts (nextFloat : Z -> nat -> R) (seconds : R)
    (assets : bool) (p : Pipeline) :
  let before := plCalls p in
  let after := plCalls (execState (renderScene nextFloat seconds assets) p) in
  List.length (filter isLineCall after)
    = (List.length (filter isLineCall before) + 402)%nat /\
  List.length (filter isCubeCall after)
    = (List.length (filter isCubeCall before) + 1)%nat /\
  List.length (filter isMeshCall after)
    = (List.length (filter isMeshCall before) + (if assets then 404 else 0))%nat.
Proof.
  intros before after; unfold before, after; rewrite renderScene_run.
  destruct (sceneCalls_counts nextFloat seconds assets (plModelView p))
    as (Hl & Hc & Hm).
  cbn [plCalls]. rewrite !filter_app, !length_app, Hl, Hc, Hm.
  repeat split; reflexivity.
Qed.

Lemma intRange_bounds (i : Z) :
  In i (intRange (-100) 201) -> -100 <= IZR i <= 100.
Proof.
  intros Hin. apply intRange_In in Hin.
  split; apply IZR_le; lia.
Qed.

Lemma onTopFace_floor (x z : R) :
  -100 <= x <= 100 -> -100 <= z <= 100 ->
  onTopFace (mkVec3f 0 (-0.5) 0) (mkVec3f 200 1 200) (mkVec3f x 0 z).
Proof.
  intros Hx Hz; unfold onTopFace; simpl.
  split; [lra |]. split; apply Rabs_le; lra.
Qed.

(** X16: the grid lies on the floor: every line [render] draws has both
    ends on the top face of the box it draws as the floor (centre
    (0, -0.5, 0), size 200 x 1 x 200), under the same model-view matrix. *)
Theorem grid_lies_on_the_floor (nextFloat : Z -> nat -> R) (seconds : R)
    (assets : bool) (mv : list Transform) (st : list (list Transform))
    (pa : Paint) (sh bl : bool) :
  Forall (gridOnFloor mv)
    (plCalls (execState (renderScene nextFloat seconds assets)
                        (mkPipeline mv st pa sh bl []))).
Proof.
  rewrite renderScene_run. cbn [plCalls plModelView app].
  unfold sceneCalls. rewrite !Forall_app. repeat split.
  - destruct assets; [| constructor].
    rewrite Forall_app; split.
    + unfold tromboneCalls.
      constructor; [exact I | constructor; [exact I | constructor]].
    + rewrite Forall_flat_map. apply Forall_forall. intros i _.
      unfold noteCalls.
      constructor; [exact I | constructor; [exact I | constructor]].
  - rewrite Forall_flat_map. apply Forall_forall. intros i Hin.
    apply intRange_bounds in Hin.
    unfold gridCalls.
    constructor; [| constructor; [| constructor]];
      (split; [reflexivity | split; apply onTopFace_floor; lra]).
  - constructor; [| constructor]. repeat split; reflexivity.
Qed.

Lemma notePlace_overFloor (nextFloat : Z -> nat -> R) (seconds : R) (i : Z) :
  0 <= seconds ->
  (forall seed n, 0 <= nextFloat seed n < 1) ->
  In i (intRange (-100) 201) ->
  overFloor (notePlace nextFloat seconds i).
Proof.
  intros Hsec Hrand Hin. apply intRange_bounds in Hin.
  unfold overFloor, notePlace, noteZ, noteT; simpl.
  pose proof (Hrand i 0%nat) as Hr.
  assert (Ht : 0 <= 5 * (nextFloat i 0%nat * 200 + 2 * seconds)) by nra.
  pose proof (fmodf_range _ 200 Ht ltac:(lra)) as Hmod.
  pose proof (Rabs_pos (sin (3 * (nextFloat i 0%nat * 200 + 2 * seconds)))) as Hlow.
  assert (Hhigh : Rabs (sin (3 * (nextFloat i 0%nat * 200 + 2 * seconds))) <= 1).
  { apply Rabs_le. pose proof (SIN_bound (3 * (nextFloat i 0%nat * 200 + 2 * seconds))). lra. }
  repeat split; lra.
Qed.

(** X17: the notes stay over the floor: with the elapsed time not negative
    and the random floats in [0, 1), every note [render] draws, and every
    mirror image, is translated to a place at most 50 from the middle
    across, between 0.15 and 1.15 high and within 100 of the middle along
    the floor, and turned there. *)
Theorem notes_stay_over_the_floor (nextFloat : Z -> nat -> R) (seconds : R)
    (assets : bool) (mv : list Transform) (st : list (list Transform))
    (pa : Paint) (sh bl : bool) :
  0 <= seconds ->
  (forall seed n, 0 <= nextFloat seed n < 1) ->
  Forall (notePlaced mv)
    (plCalls (execState (renderScene nextFloat seconds assets)
                        (mkPipeline mv st pa sh bl []))).
Proof.
  intros Hsec Hrand.
  rewrite renderScene_run. cbn [plCalls plModelView app].
  unfold sceneCalls. rewrite !Forall_app. repeat split.
  - destruct assets; [| constructor].
    rewrite Forall_app; split.
    + unfold tromboneCalls.
      constructor; [exact I | constructor; [exact I | constructor]].
    + rewrite Forall_flat_map. apply Forall_forall. intros i Hin.
      pose proof (notePlace_overFloor nextFloat seconds i Hsec Hrand Hin) as Hover.
      unfold noteCalls. constructor; [| constructor; [| constructor]].
      * exists (notePlace nextFloat seconds i), (noteTurn nextFloat seconds i).
        split; [left; rewrite <- app_assoc; reflexivity | exact Hover].
      * exists (notePlace nextFloat seconds i), (noteTurn nextFloat seconds i).
        split; [right; rewrite <- !app_assoc; reflexivity | exact Hover].
  - rewrite Forall_flat_map. apply Forall_forall. intros i _.
    unfold gridCalls.
    constructor; [exact I | constructor; [exact I | constructor]].
  - constructor; [exact I | constructor].
Qed.

Lemma notes_stay_over_the_floor_witness :
  0 <= 2 /\
  (forall seed n, 0 <= halfFloat seed n < 1) /\
  Forall (notePlaced [])
    (plCalls (execState (renderScene halfFloat 2 true) freshPipeline)).
Proof.
  assert (Hsec : 0 <= 2) by lra.
  assert (Hrand : forall seed n, 0 <= halfFloat seed n < 1)
    by (intros seed n; unfold halfFloat; lra).
  repeat split; try assumption; try apply Hrand.
  exact (notes_stay_over_the_floor halfFloat 2 true [] [] (PaintRGB 1 1 1)
           false false Hsec Hrand).
Defined.

(** ** Witnesses of the distance-based modes *)

Lemma update_focal_length_halves_or_caps_witness :
  (mFocusMethod focusApp = SET_FOCAL_LENGTH \/ mFocusMethod focusApp = SET_FOCUS) /\
  0 <= focalLengthOf (update 1 5 0.5 oneSecond focusApp) <= 5.
Proof.
  split.
  - right; reflexivity.
  - exact (proj1 (update_focal_length_halves_or_caps 1 5 0.5 oneSecond focusApp
                    (or_intror eq_refl))).
Defined.

Lemma update_degenerate_camera_witness :
  (mFocusMethod degenerateApp = SET_FOCAL_LENGTH
   \/ mFocusMethod degenerateApp = SET_FOCUS) /\
  Camera.getEyePoint (mCamera degenerateApp)
    = Camera.getCenterOfInterestPoint (mCamera degenerateApp) /\
  mCamera (update 1 5 0.5 oneSecond degenerateApp)
    = Camera.setEyeSeparation 0.05 (Camera.setFocalLength 0 (mCamera degenerateApp)).
Proof.
  split; [left; reflexivity |].
  split; [reflexivity |].
  exact (update_degenerate_camera 1 5 0.5 oneSecond degenerateApp
           (or_introl eq_refl) eq_refl).
Defined.

Lemma update_twice_is_update_once_witness :
  (mFocusMethod lengthApp = SET_FOCAL_LENGTH \/ mFocusMethod lengthApp = SET_FOCUS) /\
  update 1 5 0.5 (mkFrameInput 2 None) (update 1 5 0.5 oneSecond lengthApp)
    = update 1 5 0.5 oneSecond lengthApp.
Proof.
  split.
  - left; reflexivity.
  - exact (update_twice_is_update_once 1 5 0.5 oneSecond (mkFrameInput 2 None)
             lengthApp (or_introl eq_refl)).
Defined.
